(** * meshopt_wrapper: the simplification request handler

    A shallow embedding of [Native/meshoptimizer/meshopt_wrapper.cpp]
    (with the structures of [meshopt_wrapper.h]) and the properties of
    [meshopt_simplify_with_uvs].

    Conventions.
    - [size_t], [int] and [unsigned int] values are integers in [Z]; the
      width of [size_t] is taken to be 64 bits.
    - [float] is IEEE 754 binary32, computed with the standard library's
      executable specification of floating-point arithmetic ([SpecFloat])
      at precision 24 and maximal exponent 128, rounding to nearest even.
    - A pointer argument is an [option]: [None] is the null pointer and
      [Some v] points to an object whose current contents are [v].
    - Undefined behaviour of the C++ code (a store through a null pointer,
      a floating-point value converted to an integer type that cannot hold
      it) is the outcome [Undefined].
    - [meshoptimizer.h] is an external library: its two simplifiers and its
      two option bits are the fields of the class [meshoptimizer]. *)

From Stdlib Require Import ZArith QArith Qround Qpower Qfield Bool List Lia.
From Stdlib Require Import Strings.String Strings.Byte.
From Stdlib Require Import Floats.SpecFloat.
Import ListNotations.

Local Open Scope Z_scope.

(** ** Single-precision floating point *)

Definition float32 : Type := spec_float.

Module Float32.

Definition prec : Z := 24.
Definition emax : Z := 128.

(** [0.0f] *)
Definition zero : float32 := S754_zero false.

(** [a > b] on floats; false as soon as one side is a NaN. *)
Definition gt (a b : float32) : bool := SFltb b a.

Definition mul (a b : float32) : float32 := SFmul prec emax a b.

(** Largest value of [size_t]. *)
Definition SIZE_MAX : Z := 2 ^ 64 - 1.

(** Integer-to-float conversion of a [size_t] operand (the usual arithmetic
    conversion of [index_count] in [index_count * target_ratio]). *)
Definition of_size (n : Z) : float32 := binary_normalize prec emax n 0 false.

(** Magnitude of a finite float with its fractional part discarded. *)
Definition truncate (m : positive) (e : Z) : Z := Z.shiftl (Zpos m) e.

(** [static_cast<size_t>(x)]: the conversion truncates toward zero, and is
    undefined ([None]) when the truncated value is not a [size_t]. *)
Definition to_size (x : float32) : option Z :=
  match x with
  | S754_zero _ => Some 0
  | S754_finite s m e =>
      let t := truncate m e in
      if s then (if t =? 0 then Some 0 else None)
      else if t <=? SIZE_MAX then Some t else None
  | S754_infinity _ | S754_nan => None
  end.

(** The rational number a finite float stands for. *)
Definition to_Q (x : float32) : Q :=
  match x with
  | S754_finite s m e =>
      let q := (inject_Z (Zpos m) * Qpower 2 e)%Q in
      if s then Qopp q else q
  | _ => 0%Q
  end.

Definition is_finite (x : float32) : bool :=
  match x with
  | S754_zero _ | S754_finite _ _ _ => true
  | _ => false
  end.

(** Some constants, as the bit patterns a C compiler produces for them. *)
Definition one : float32 := S754_finite false 8388608 (-23).        (* 1.0f *)
Definition two : float32 := S754_finite false 8388608 (-22).        (* 2.0f *)
Definition half : float32 := S754_finite false 8388608 (-24).       (* 0.5f *)
Definition minus_one : float32 := S754_finite true 8388608 (-23).   (* -1.0f *)
Definition huge : float32 := S754_finite false 8388608 76.          (* 0x1p99f *)

End Float32.

(** ** Fixed-size character buffers *)

Module CString.

(** The characters of a string literal (without the terminating NUL). *)
Definition literal (s : string) : list byte := list_byte_of_string s.

(** [strncpy(dest, src, n)]: the first [n] characters of [dest] become the
    characters of [src], cut at [n] or padded with NUL up to [n]. *)
Definition strncpy (dest src : list byte) (n : nat) : list byte :=
  firstn n (src ++ repeat x00 (n - List.length src)%nat)%list
    ++ skipn n dest.

(** [buf[0] = c] *)
Definition store_first (buf : list byte) (c : byte) : list byte :=
  match buf with
  | [] => []
  | _ :: rest => c :: rest
  end.

(** The string a reader sees in a buffer: the characters before the first
    NUL. *)
Fixpoint c_str (buf : list byte) : list byte :=
  match buf with
  | [] => []
  | c :: rest => if Byte.eqb c x00 then [] else c :: c_str rest
  end.

Definition read (buf : list byte) : string := string_of_list_byte (c_str buf).

End CString.

(** ** The structures of [meshopt_wrapper.h] *)

Module Result.

(** [MeshoptSimplifyResult]; [error_message] is the [char[256]] field. *)
Record MeshoptSimplifyResult : Type := Build {
  index_count : Z;
  result_error : float32;
  success : Z;
  error_message : list byte
}.

End Result.

Module Options.

(** [MeshoptSimplifyOptions]; the two options are C [int]s, tested for
    being nonzero. *)
Record MeshoptSimplifyOptions : Type := Build {
  target_index_count : Z;
  target_ratio : float32;
  target_error : float32;
  uv_weight : float32;
  lock_border : Z;
  error_is_absolute : Z
}.

End Options.

(** ** The geometry engine ([meshoptimizer.h]) *)

(** The arguments the two simplifiers share, in the order of their
    signature (the destination and the error out-parameter apart). *)
Record simplify_arguments : Type := {
  arg_indices : list Z;
  arg_index_count : Z;
  arg_vertex_positions : list float32;
  arg_vertex_count : Z;
  arg_vertex_positions_stride : Z;
  arg_target_index_count : Z;
  arg_target_error : float32;
  arg_options : Z
}.

(** The arguments only [meshopt_simplifyWithAttributes] takes. *)
Record attribute_arguments : Type := {
  arg_vertex_attributes : list float32;
  arg_vertex_attributes_stride : Z;
  arg_attribute_weights : list float32;
  arg_attribute_count : Z;
  arg_vertex_lock : option (list byte)
}.

(** What a simplifier leaves behind: its return value, the value it leaves
    in [*out_result_error] (which holds [0.0f] on entry), and the contents of
    the destination buffer. *)
Record engine_output : Type := {
  new_index_count : Z;
  out_result_error : float32;
  out_destination : list Z
}.

(** A simplifier sees the destination buffer as it is on entry. *)
Class meshoptimizer : Type := {
  meshopt_SimplifyLockBorder : Z;
  meshopt_SimplifyErrorAbsolute : Z;
  meshopt_simplify :
    list Z -> simplify_arguments -> engine_output;
  meshopt_simplifyWithAttributes :
    list Z -> simplify_arguments -> attribute_arguments -> engine_output
}.

(** One invocation of the engine, as recorded in the trace of a call. *)
Inductive engine_call : Type :=
| Call_simplify (a : simplify_arguments)
| Call_simplifyWithAttributes (a : simplify_arguments) (b : attribute_arguments).

Definition call_arguments (c : engine_call) : simplify_arguments :=
  match c with
  | Call_simplify a => a
  | Call_simplifyWithAttributes a _ => a
  end.

(** ** The handler *)

(** What a call leaves behind: the destination buffer (null if it was null),
    the result object, and the engine invocations it made, in order. *)
Record final_state : Type := {
  destination_after : option (list Z);
  result_after : Result.MeshoptSimplifyResult;
  engine_calls : list engine_call
}.

Inductive outcome : Type :=
| Undefined
| Returned (s : final_state).

(** [unsigned int] arithmetic is modulo [2^32]. *)
Definition to_unsigned (z : Z) : Z := z mod 2 ^ 32.

(** [sizeof(result->error_message) - 1] *)
Definition message_capacity : nat := 255.

(** [strncpy(result->error_message, msg, sizeof(result->error_message) - 1)] *)
Definition set_error_message (r : Result.MeshoptSimplifyResult) (msg : string)
  : Result.MeshoptSimplifyResult :=
  Result.Build (Result.index_count r) (Result.result_error r) (Result.success r)
    (CString.strncpy (Result.error_message r) (CString.literal msg)
       message_capacity).

(** Lines 37-40: the result is initialised through the pointer. *)
Definition initialise (r : Result.MeshoptSimplifyResult)
  : Result.MeshoptSimplifyResult :=
  Result.Build 0 Float32.zero 0
    (CString.store_first (Result.error_message r) x00).

(** [index_count * options->target_ratio]: the count is converted to
    [float] and the product is taken in single precision. *)
Definition ratio_product (index_count : Z) (ratio : float32) : float32 :=
  Float32.mul (Float32.of_size index_count) ratio.

Section Handler.

Context {engine : meshoptimizer}.

(** Lines 59-68: the target index count handed to the engine. [None] when
    the product does not convert to [size_t]. *)
Definition effective_target_index_count
    (index_count : Z) (options : Options.MeshoptSimplifyOptions) : option Z :=
  let target_index_count := Options.target_index_count options in
  let derived :=
    if (target_index_count =? 0)
       && Float32.gt (Options.target_ratio options) Float32.zero
    then
      match Float32.to_size
              (ratio_product index_count (Options.target_ratio options)) with
      | Some target_index_count => Some ((target_index_count / 3) * 3)
      | None => None
      end
    else Some target_index_count in
  match derived with
  | Some target_index_count =>
      Some (if target_index_count =? 0 then 3 else target_index_count)
  | None => None
  end.

(** Lines 71-77: the engine's option word. *)
Definition meshopt_options (options : Options.MeshoptSimplifyOptions) : Z :=
  let meshopt_options := 0 in
  let meshopt_options :=
    if Options.lock_border options =? 0 then meshopt_options
    else to_unsigned (Z.lor meshopt_options meshopt_SimplifyLockBorder) in
  let meshopt_options :=
    if Options.error_is_absolute options =? 0 then meshopt_options
    else to_unsigned (Z.lor meshopt_options meshopt_SimplifyErrorAbsolute) in
  meshopt_options.

(** Line 84: the UV data the attribute-aware simplifier is given, if the
    test [vertex_uvs != nullptr && options->uv_weight > 0.0f] passes. *)
Definition attribute_source
    (vertex_uvs : option (list float32))
    (options : Options.MeshoptSimplifyOptions) : option (list float32) :=
  match vertex_uvs with
  | Some uvs =>
      if Float32.gt (Options.uv_weight options) Float32.zero
      then Some uvs else None
  | None => None
  end.

(** Lines 128-130. *)
Definition package (r : Result.MeshoptSimplifyResult) (o : engine_output)
  : Result.MeshoptSimplifyResult :=
  Result.Build (new_index_count o) (out_result_error o) 1
    (Result.error_message r).

Definition meshopt_simplify_with_uvs
    (destination : option (list Z))
    (indices : option (list Z))
    (index_count : Z)
    (vertex_positions : option (list float32))
    (vertex_count : Z)
    (vertex_stride : Z)
    (vertex_uvs : option (list float32))
    (uv_stride : Z)
    (options : option Options.MeshoptSimplifyOptions)
    (result : option Result.MeshoptSimplifyResult) : outcome :=
  match result with
  | None => Undefined
  | Some result0 =>
    let r := initialise result0 in
    match destination, indices, vertex_positions, options with
    | Some dst, Some idx, Some positions, Some opts =>
      if (index_count =? 0) || (vertex_count =? 0) then
        Returned
          {| destination_after := destination;
             result_after :=
               set_error_message r "Empty mesh (zero indices or vertices)";
             engine_calls := [] |}
      else if negb (index_count mod 3 =? 0) then
        Returned
          {| destination_after := destination;
             result_after :=
               set_error_message r "Index count must be multiple of 3";
             engine_calls := [] |}
      else
        match effective_target_index_count index_count opts with
        | None => Undefined
        | Some target_index_count =>
          let a :=
            {| arg_indices := idx;
               arg_index_count := index_count;
               arg_vertex_positions := positions;
               arg_vertex_count := vertex_count;
               arg_vertex_positions_stride := vertex_stride;
               arg_target_index_count := target_index_count;
               arg_target_error := Options.target_error opts;
               arg_options := meshopt_options opts |} in
          match attribute_source vertex_uvs opts with
          | Some uvs =>
            let b :=
              {| arg_vertex_attributes := uvs;
                 arg_vertex_attributes_stride := uv_stride;
                 arg_attribute_weights :=
                   [Options.uv_weight opts; Options.uv_weight opts];
                 arg_attribute_count := 2;
                 arg_vertex_lock := None |} in
            let o := meshopt_simplifyWithAttributes dst a b in
            Returned
              {| destination_after := Some (out_destination o);
                 result_after := package r o;
                 engine_calls := [Call_simplifyWithAttributes a b] |}
          | None =>
            let o := meshopt_simplify dst a in
            Returned
              {| destination_after := Some (out_destination o);
                 result_after := package r o;
                 engine_calls := [Call_simplify a] |}
          end
        end
    | _, _, _, _ =>
      Returned
        {| destination_after := destination;
           result_after :=
             set_error_message r "Null pointer in required parameter";
           engine_calls := [] |}
    end
  end.

End Handler.

(** * The vocabulary of the properties *)

Section Vocabulary.

Context {engine : meshoptimizer}.

(** What the engine answers to a recorded invocation. *)
Definition engine_reply (dst : list Z) (c : engine_call) : engine_output :=
  match c with
  | Call_simplify a => meshopt_simplify dst a
  | Call_simplifyWithAttributes a b => meshopt_simplifyWithAttributes dst a b
  end.

(** A call is rejected when it returns without having invoked the engine,
    with the destination as it was, a cleared result and the message
    [msg]. *)
Definition rejected_with
    (msg : string) (destination : option (list Z)) (o : outcome) : Prop :=
  exists s,
    o = Returned s
    /\ engine_calls s = []
    /\ destination_after s = destination
    /\ Result.success (result_after s) = 0
    /\ Result.index_count (result_after s) = 0
    /\ Result.result_error (result_after s) = Float32.zero
    /\ CString.read (Result.error_message (result_after s)) = msg.

(** The shared arguments of the invocation made for a valid call whose
    effective target is [t]. *)
Definition engine_arguments
    (idx : list Z) (index_count : Z) (positions : list float32)
    (vertex_count vertex_stride : Z)
    (opts : Options.MeshoptSimplifyOptions) (t : Z) : simplify_arguments :=
  {| arg_indices := idx;
     arg_index_count := index_count;
     arg_vertex_positions := positions;
     arg_vertex_count := vertex_count;
     arg_vertex_positions_stride := vertex_stride;
     arg_target_index_count := t;
     arg_target_error := Options.target_error opts;
     arg_options := meshopt_options opts |}.

(** The UV data as two scalar attributes of equal weight, no vertex lock. *)
Definition uv_arguments
    (uvs : list float32) (uv_stride : Z)
    (opts : Options.MeshoptSimplifyOptions) : attribute_arguments :=
  {| arg_vertex_attributes := uvs;
     arg_vertex_attributes_stride := uv_stride;
     arg_attribute_weights := [Options.uv_weight opts; Options.uv_weight opts];
     arg_attribute_count := 2;
     arg_vertex_lock := None |}.

Definition selected_call
    (a : simplify_arguments) (vertex_uvs : option (list float32))
    (uv_stride : Z) (opts : Options.MeshoptSimplifyOptions) : engine_call :=
  match attribute_source vertex_uvs opts with
  | Some uvs => Call_simplifyWithAttributes a (uv_arguments uvs uv_stride opts)
  | None => Call_simplify a
  end.

(** The state a call is in when it returns from the invocation [c]. *)
Definition simplified
    (dst : list Z) (r : Result.MeshoptSimplifyResult) (c : engine_call)
  : final_state :=
  {| destination_after := Some (out_destination (engine_reply dst c));
     result_after := package (initialise r) (engine_reply dst c);
     engine_calls := [c] |}.

End Vocabulary.

(** ** The effective target, as specified and as computed *)

(** Clamping to a minimum of 3: a derived 0 becomes one triangle. *)
Definition at_least_one_triangle (t : Z) : Z := if t =? 0 then 3 else t.

(** [floor(index_count * target_ratio / 3) * 3] on the exact product of the
    count and the value of the ratio. *)
Definition exact_ratio_target (index_count : Z) (ratio : float32) : Z :=
  Qfloor (inject_Z index_count * Float32.to_Q ratio / 3) * 3.

(** [floor(P / 3) * 3] where [P] is the single-precision product
    [(float)index_count * target_ratio] the code computes. *)
Definition rounded_ratio_target (index_count : Z) (ratio : float32) : Z :=
  Qfloor (Float32.to_Q (ratio_product index_count ratio) / 3) * 3.

(** The effective target as the specification words it. *)
Definition specified_target
    (index_count : Z) (options : Options.MeshoptSimplifyOptions) : Z :=
  if Options.target_index_count options =? 0 then
    if Float32.gt (Options.target_ratio options) Float32.zero
    then at_least_one_triangle
           (exact_ratio_target index_count (Options.target_ratio options))
    else 3
  else Options.target_index_count options.

(** Options that ask for a ratio only. *)
Definition ratio_only (ratio : float32) : Options.MeshoptSimplifyOptions :=
  Options.Build 0 ratio Float32.zero Float32.zero 0 0.

(** ** The engine's contract *)

(** [after] differs from [before] in its first [k] entries at most. *)
Definition writes_within (k : Z) (before after : list Z) : Prop :=
  List.length after = List.length before
  /\ forall i : nat, k <= Z.of_nat i -> nth_error after i = nth_error before i.

(** The contract of the simplifiers: given a non-empty triangle list and a
    destination with room for [index_count] entries, they return a multiple
    of 3 that is at most [index_count] and write no further than that many
    entries of the destination. *)
Definition within_contract
    (dst : list Z) (a : simplify_arguments) (o : engine_output) : Prop :=
  0 <= new_index_count o <= arg_index_count a
  /\ new_index_count o mod 3 = 0
  /\ writes_within (arg_index_count a) dst (out_destination o).

Definition engine_contract (engine : meshoptimizer) : Prop :=
  forall dst a,
    0 < arg_index_count a -> arg_index_count a mod 3 = 0 ->
    0 < arg_vertex_count a ->
    arg_index_count a <= Z.of_nat (List.length dst) ->
    within_contract dst a (meshopt_simplify dst a)
    /\ forall b, within_contract dst a (meshopt_simplifyWithAttributes dst a b).

(** ** What a caller observes *)

(** What the caller reads in the result: index count, error, success flag
    and message. *)
Definition observable (o : outcome) : option (Z * float32 * Z * string) :=
  match o with
  | Undefined => None
  | Returned s =>
      let r := result_after s in
      Some (Result.index_count r, Result.result_error r, Result.success r,
            CString.read (Result.error_message r))
  end.

(** The engine is a function of its inputs: what it returns and the error it
    reports do not depend on what the destination buffer holds on entry. *)
Definition deterministic_engine (engine : meshoptimizer) : Prop :=
  forall d1 d2 a,
    new_index_count (meshopt_simplify d1 a)
    = new_index_count (meshopt_simplify d2 a)
    /\ out_result_error (meshopt_simplify d1 a)
       = out_result_error (meshopt_simplify d2 a)
    /\ forall b,
         new_index_count (meshopt_simplifyWithAttributes d1 a b)
         = new_index_count (meshopt_simplifyWithAttributes d2 a b)
         /\ out_result_error (meshopt_simplifyWithAttributes d1 a b)
            = out_result_error (meshopt_simplifyWithAttributes d2 a b).

(** ** More vocabulary *)

(** The three messages of a rejected call, in the order of the tests. *)
Definition rejection_messages : list string :=
  ["Null pointer in required parameter"%string;
   "Empty mesh (zero indices or vertices)"%string;
   "Index count must be multiple of 3"%string].

(** The state a call is in when it returns without invoking the engine. *)
Definition rejected
    (destination : option (list Z)) (r : Result.MeshoptSimplifyResult)
    (msg : string) : final_state :=
  {| destination_after := destination;
     result_after := set_error_message (initialise r) msg;
     engine_calls := [] |}.

(** The float [2^k], for [k] in the normal range: [1.0f] is
    [power_of_two 0], [0.5f] is [power_of_two (-1)]. *)
Definition power_of_two (k : Z) : float32 := S754_finite false 8388608 (k - 23).

(** A float that is not negative and has at most [B] binary digits before
    the point. *)
Definition below_pow2 (B : Z) (x : float32) : Prop :=
  match x with
  | S754_zero _ => True
  | S754_finite s m e => s = false /\ Zpos (digits2_pos m) + e <= B
  | _ => False
  end.

(** ** A stand-in engine

    It keeps the leading triangles of the index buffer, as many as the
    target allows, and reports the weight of the first attribute as its
    error on the attribute-aware path. Its option bits are those of
    meshoptimizer 0.21. *)

Module Prefix.

Definition kept (a : simplify_arguments) : Z :=
  Z.max 0 (Z.min (3 * (arg_target_index_count a / 3)) (arg_index_count a)).

Definition write (dst : list Z) (a : simplify_arguments) : list Z :=
  let k := Z.to_nat (kept a) in
  let kept_indices := firstn k (arg_indices a) in
  (kept_indices ++ skipn (List.length kept_indices) dst)%list.

Definition simplify (dst : list Z) (a : simplify_arguments) : engine_output :=
  {| new_index_count := kept a;
     out_result_error := Float32.zero;
     out_destination := write dst a |}.

Definition simplifyWithAttributes
    (dst : list Z) (a : simplify_arguments) (b : attribute_arguments)
  : engine_output :=
  {| new_index_count := kept a;
     out_result_error := hd Float32.zero (arg_attribute_weights b);
     out_destination := write dst a |}.

Definition engine : meshoptimizer :=
  {| meshopt_SimplifyLockBorder := 1;
     meshopt_SimplifyErrorAbsolute := 4;
     meshopt_simplify := simplify;
     meshopt_simplifyWithAttributes := simplifyWithAttributes |}.

End Prefix.

(** ** Sample data: a quad of two triangles *)

Module Quad.

Definition indices : list Z := [0; 1; 2; 2; 1; 3].

Definition positions : list float32 :=
  [Float32.zero; Float32.zero; Float32.zero;
   Float32.one; Float32.zero; Float32.zero;
   Float32.zero; Float32.one; Float32.zero;
   Float32.one; Float32.one; Float32.zero].

Definition uvs : list float32 :=
  [Float32.zero; Float32.zero; Float32.one; Float32.zero;
   Float32.zero; Float32.one; Float32.one; Float32.one].

(** A destination buffer and a result object holding leftovers. *)
Definition destination : list Z := [7; 7; 7; 7; 7; 7; 7; 7].

Definition stale_result : Result.MeshoptSimplifyResult :=
  Result.Build 99 Float32.one 1 (repeat x21 256).

(** Half the indices, UVs weighted by one, both option flags set. *)
Definition options : Options.MeshoptSimplifyOptions :=
  Options.Build 0 Float32.half Float32.zero Float32.one 1 1.

End Quad.

(** * Properties *)

(** ** Floating-point facts *)

Module Float32Facts.

(** Rounding keeps the sign it is given. *)
Lemma binary_round_aux_sign (s : bool) (m e : Z) (l : location) :
  match binary_round_aux Float32.prec Float32.emax s m e l with
  | S754_zero s' | S754_infinity s' | S754_finite s' _ _ => s' = s
  | S754_nan => True
  end.
Proof.
  unfold binary_round_aux.
  destruct (shr_fexp _ _ m e l) as [mrs' e'].
  destruct (shr_fexp _ _ _ e' loc_Exact) as [mrs'' e''].
  destruct (shr_m mrs''); auto.
  destruct (e'' <=? _); auto.
Qed.

Lemma of_size_sign (n : Z) :
  0 <= n ->
  match Float32.of_size n with
  | S754_zero s | S754_infinity s | S754_finite s _ _ => s = false
  | S754_nan => True
  end.
Proof.
  intros Hn. unfold Float32.of_size, binary_normalize.
  destruct n as [|p|p]; [reflexivity| |lia].
  unfold binary_round.
  destruct (shl_align p 0 _) as [mz ez].
  apply binary_round_aux_sign.
Qed.

(** [x > 0.0f] holds of the positive finite floats and of +infinity. *)
Lemma gt_zero_inv (x : float32) :
  Float32.gt x Float32.zero = true ->
  x = S754_infinity false \/ exists m e, x = S754_finite false m e.
Proof.
  destruct x as [s|s| |s m e]; cbn; try discriminate.
  - destruct s; [discriminate|auto].
  - destruct s; [discriminate|eauto].
Qed.

(** The product of a [size_t] and a positive float is not negative. *)
Lemma product_sign (n : Z) (r : float32) :
  0 <= n -> Float32.gt r Float32.zero = true ->
  match Float32.mul (Float32.of_size n) r with
  | S754_zero s | S754_infinity s | S754_finite s _ _ => s = false
  | S754_nan => True
  end.
Proof.
  intros Hn Hr. pose proof (of_size_sign n Hn) as Hs.
  unfold Float32.mul.
  destruct (gt_zero_inv r Hr) as [->|(m & e & ->)];
    destruct (Float32.of_size n) as [s|s| |s mx ex]; cbn; subst; auto.
  apply (binary_round_aux_sign false).
Qed.

(** A float above [1.0f] is above [0.0f]; a float below [0.0f] is not. *)
Lemma gt_one_gt_zero (x : float32) :
  Float32.gt x Float32.one = true -> Float32.gt x Float32.zero = true.
Proof.
  destruct x as [s|s| |s m e]; try discriminate.
  - destruct s; [discriminate|reflexivity].
  - destruct s; [discriminate|reflexivity].
Qed.

Lemma lt_zero_not_gt_zero (x : float32) :
  Float32.gt Float32.zero x = true -> Float32.gt x Float32.zero = false.
Proof.
  destruct x as [s|s| |s m e]; try discriminate.
  - destruct s; [reflexivity|discriminate].
  - destruct s; [reflexivity|discriminate].
Qed.

Lemma Qpower_two (e : Z) :
  0 <= e -> (Qpower 2 e == inject_Z (2 ^ e))%Q.
Proof. intros He. rewrite Zpower_Qpower by assumption. reflexivity. Qed.

Lemma two_pow_Q_nonzero (e : Z) : 0 <= e -> ~ (inject_Z (2 ^ e) == 0)%Q.
Proof.
  intros He H. assert (0 < 2 ^ e) by (apply Z.pow_pos_nonneg; lia).
  unfold Qeq in H. simpl in H. lia.
Qed.

(** Dividing the truncated magnitude by [k] is flooring the quotient of the
    exact value by [k]. *)
Lemma floor_scaled (m : positive) (e k : Z) :
  0 < k ->
  Qfloor ((inject_Z (Zpos m) * Qpower 2 e) / inject_Z k)
  = Float32.truncate m e / k.
Proof.
  intros Hk. unfold Float32.truncate.
  assert (Hk' : ~ (inject_Z k == 0)%Q) by (unfold Qeq; simpl; lia).
  destruct (Z_le_gt_dec 0 e) as [He|He].
  - rewrite Z.shiftl_mul_pow2 by assumption.
    rewrite Zdiv_Qdiv, inject_Z_mult, Qpower_two by assumption. reflexivity.
  - replace e with (- (- e)) by lia.
    rewrite Z.shiftl_opp_r, Z.shiftr_div_pow2 by lia.
    rewrite Z.div_div by (try apply Z.pow_nonzero; lia).
    rewrite Zdiv_Qdiv, inject_Z_mult.
    rewrite Qpower_opp, Qpower_two by lia.
    pose proof (two_pow_Q_nonzero (- e) ltac:(lia)).
    apply Qfloor_comp. field. split; assumption.
Qed.

(** A defined conversion of a non-negative float yields the floor of its
    value, and a third of it is the floor of a third of the value. *)
Lemma to_size_floor_third (x : float32) (t : Z) :
  match x with
  | S754_finite s _ _ => s = false
  | _ => True
  end ->
  Float32.to_size x = Some t ->
  t / 3 = Qfloor (Float32.to_Q x / 3).
Proof.
  destruct x as [s|s| |s m e]; intros Hs; try discriminate.
  - intros [= <-]. reflexivity.
  - subst s. unfold Float32.to_size.
    destruct (Float32.truncate m e <=? Float32.SIZE_MAX); [|discriminate].
    intros [= <-]. symmetry. apply (floor_scaled m e 3). lia.
Qed.

(** The truncated magnitude is the floor of the value. *)
Lemma truncate_floor (m : positive) (e : Z) :
  Float32.truncate m e = Qfloor (Float32.to_Q (S754_finite false m e)).
Proof.
  rewrite <- (Z.div_1_r (Float32.truncate m e)).
  rewrite <- (floor_scaled m e 1) by lia.
  apply Qfloor_comp. cbn [Float32.to_Q]. field.
Qed.

(** The conversion of a non-negative float is defined exactly when the
    float is finite and below [2^64]. *)
Lemma to_size_defined (x : float32) :
  match x with
  | S754_finite s _ _ => s = false
  | _ => True
  end ->
  (exists t, Float32.to_size x = Some t)
  <-> Float32.is_finite x = true
      /\ (Float32.to_Q x < inject_Z (2 ^ 64))%Q.
Proof.
  destruct x as [s|s| |s m e]; intros Hs.
  - split; [intros _; split; reflexivity | intros _; exists 0; reflexivity].
  - split; [intros (t & H); discriminate | intros (H & _); discriminate].
  - split; [intros (t & H); discriminate | intros (H & _); discriminate].
  - subst s. unfold Float32.to_size. rewrite truncate_floor.
    set (q := Float32.to_Q (S754_finite false m e)).
    pose proof (Qfloor_le q) as Hlo. pose proof (Qlt_floor q) as Hhi.
    change Float32.SIZE_MAX with (2 ^ 64 - 1).
    destruct (Qfloor q <=? 2 ^ 64 - 1) eqn:E.
    + apply Z.leb_le in E. split; [intros _|eauto].
      split; [reflexivity|].
      apply (Qlt_le_trans _ _ _ Hhi). rewrite <- Zle_Qle. lia.
    + apply Z.leb_gt in E. split; [intros (t & H); discriminate|].
      intros (_ & H). exfalso.
      assert (Hq : (inject_Z (2 ^ 64) <= q)%Q)
        by (apply (Qle_trans _ (inject_Z (Qfloor q)));
            [rewrite <- Zle_Qle; lia | exact Hlo]).
      exact (Qlt_not_le _ _ H Hq).
Qed.

End Float32Facts.

(** ** Messages *)

Module CStringFacts.

(** The three messages fit the buffer, so a reader gets them back whatever
    the buffer held before. *)
Lemma read_null_pointer (r : Result.MeshoptSimplifyResult) :
  CString.read
    (Result.error_message
       (set_error_message r "Null pointer in required parameter"))
  = "Null pointer in required parameter"%string.
Proof. reflexivity. Qed.

Lemma read_empty_mesh (r : Result.MeshoptSimplifyResult) :
  CString.read
    (Result.error_message
       (set_error_message r "Empty mesh (zero indices or vertices)"))
  = "Empty mesh (zero indices or vertices)"%string.
Proof. reflexivity. Qed.

Lemma read_not_triangles (r : Result.MeshoptSimplifyResult) :
  CString.read
    (Result.error_message
       (set_error_message r "Index count must be multiple of 3"))
  = "Index count must be multiple of 3"%string.
Proof. reflexivity. Qed.

(** After initialisation the message is empty. *)
Lemma read_initialised (r : Result.MeshoptSimplifyResult) :
  CString.read (Result.error_message (initialise r)) = EmptyString.
Proof. destruct r as [n e s [|c buf]]; reflexivity. Qed.

(** [strncpy] writes exactly [n] characters of a buffer that has them. *)
Lemma strncpy_length (dest src : list byte) (n : nat) :
  (n <= List.length dest)%nat ->
  List.length (CString.strncpy dest src n) = List.length dest.
Proof.
  intros Hn. unfold CString.strncpy.
  rewrite length_app, length_firstn, length_skipn, length_app, repeat_length.
  lia.
Qed.

End CStringFacts.

(** ** The handler, case by case *)

Section HandlerFacts.

Context {engine : meshoptimizer}.

(** Line 37 stores through [result] before anything is tested. *)
Lemma null_result_undefined
    destination indices index_count vertex_positions vertex_count
    vertex_stride vertex_uvs uv_stride options :
  meshopt_simplify_with_uvs destination indices index_count vertex_positions
    vertex_count vertex_stride vertex_uvs uv_stride options None = Undefined.
Proof. reflexivity. Qed.

Lemma null_argument_rejected
    destination indices index_count vertex_positions vertex_count
    vertex_stride vertex_uvs uv_stride options r :
  destination = None \/ indices = None \/ vertex_positions = None
    \/ options = None ->
  rejected_with "Null pointer in required parameter" destination
    (meshopt_simplify_with_uvs destination indices index_count
       vertex_positions vertex_count vertex_stride vertex_uvs uv_stride
       options (Some r)).
Proof.
  intros H. unfold meshopt_simplify_with_uvs.
  destruct destination, indices, vertex_positions, options;
    try (destruct H as [H|[H|[H|H]]]; discriminate);
    eexists; repeat split; apply CStringFacts.read_null_pointer.
Qed.

Lemma empty_mesh_rejected
    dst idx index_count positions vertex_count vertex_stride vertex_uvs
    uv_stride opts r :
  index_count = 0 \/ vertex_count = 0 ->
  rejected_with "Empty mesh (zero indices or vertices)" (Some dst)
    (meshopt_simplify_with_uvs (Some dst) (Some idx) index_count
       (Some positions) vertex_count vertex_stride vertex_uvs uv_stride
       (Some opts) (Some r)).
Proof.
  intros H. unfold meshopt_simplify_with_uvs.
  replace ((index_count =? 0) || (vertex_count =? 0)) with true
    by (symmetry; apply orb_true_iff; rewrite !Z.eqb_eq; exact H).
  eexists; repeat split; apply CStringFacts.read_empty_mesh.
Qed.

Lemma not_triangles_rejected
    dst idx index_count positions vertex_count vertex_stride vertex_uvs
    uv_stride opts r :
  index_count <> 0 -> vertex_count <> 0 -> index_count mod 3 <> 0 ->
  rejected_with "Index count must be multiple of 3" (Some dst)
    (meshopt_simplify_with_uvs (Some dst) (Some idx) index_count
       (Some positions) vertex_count vertex_stride vertex_uvs uv_stride
       (Some opts) (Some r)).
Proof.
  intros Hi Hv Hm. unfold meshopt_simplify_with_uvs.
  apply Z.eqb_neq in Hi, Hv, Hm. rewrite Hi, Hv, Hm. cbn [orb negb].
  eexists; repeat split; apply CStringFacts.read_not_triangles.
Qed.

(** A valid call whose target derivation is defined invokes the engine
    once and returns. *)
Lemma valid_call_returns
    dst idx index_count positions vertex_count vertex_stride vertex_uvs
    uv_stride opts r t :
  index_count <> 0 -> vertex_count <> 0 -> index_count mod 3 = 0 ->
  effective_target_index_count index_count opts = Some t ->
  meshopt_simplify_with_uvs (Some dst) (Some idx) index_count
    (Some positions) vertex_count vertex_stride vertex_uvs uv_stride
    (Some opts) (Some r)
  = Returned
      (simplified dst r
         (selected_call
            (engine_arguments idx index_count positions vertex_count
               vertex_stride opts t)
            vertex_uvs uv_stride opts)).
Proof.
  intros Hi Hv Hm Ht. unfold meshopt_simplify_with_uvs.
  apply Z.eqb_neq in Hi, Hv. apply Z.eqb_eq in Hm.
  rewrite Hi, Hv, Hm, Ht. cbn [orb negb].
  unfold selected_call. destruct (attribute_source vertex_uvs opts); reflexivity.
Qed.

(** Conversely, a call that invoked the engine was a valid call. *)
Lemma reaches_engine_inv
    destination indices index_count vertex_positions vertex_count
    vertex_stride vertex_uvs uv_stride options result s :
  meshopt_simplify_with_uvs destination indices index_count vertex_positions
    vertex_count vertex_stride vertex_uvs uv_stride options result
  = Returned s ->
  engine_calls s <> [] ->
  exists dst idx positions opts r t,
    destination = Some dst /\ indices = Some idx
    /\ vertex_positions = Some positions /\ options = Some opts
    /\ result = Some r
    /\ index_count <> 0 /\ vertex_count <> 0 /\ index_count mod 3 = 0
    /\ effective_target_index_count index_count opts = Some t
    /\ s = simplified dst r
             (selected_call
                (engine_arguments idx index_count positions vertex_count
                   vertex_stride opts t)
                vertex_uvs uv_stride opts).
Proof.
  intros Hrun Hcalls.
  destruct result as [r|]; [|discriminate].
  destruct destination as [dst|], indices as [idx|],
    vertex_positions as [positions|], options as [opts|];
    try (injection Hrun as <-; now elim Hcalls).
  destruct (Z.eq_dec index_count 0) as [Hi|Hi];
    [destruct (empty_mesh_rejected dst idx index_count positions
                 vertex_count vertex_stride vertex_uvs uv_stride opts r
                 (or_introl Hi)) as (s' & E & Hnil & _);
     rewrite Hrun in E; injection E as <-; contradiction|].
  destruct (Z.eq_dec vertex_count 0) as [Hv|Hv];
    [destruct (empty_mesh_rejected dst idx index_count positions
                 vertex_count vertex_stride vertex_uvs uv_stride opts r
                 (or_intror Hv)) as (s' & E & Hnil & _);
     rewrite Hrun in E; injection E as <-; contradiction|].
  destruct (Z.eq_dec (index_count mod 3) 0) as [Hm|Hm];
    [|destruct (not_triangles_rejected dst idx index_count positions
                  vertex_count vertex_stride vertex_uvs uv_stride opts r
                  Hi Hv Hm) as (s' & E & Hnil & _);
      rewrite Hrun in E; injection E as <-; contradiction].
  destruct (effective_target_index_count index_count opts) as [t|] eqn:Ht.
  - rewrite (valid_call_returns _ _ _ _ _ _ _ _ _ _ t Hi Hv Hm Ht) in Hrun.
    injection Hrun as <-.
    exists dst, idx, positions, opts, r, t. repeat split; auto.
  - unfold meshopt_simplify_with_uvs in Hrun.
    apply Z.eqb_neq in Hi, Hv. apply Z.eqb_eq in Hm.
    rewrite Hi, Hv, Hm, Ht in Hrun. discriminate.
Qed.

(** Whichever simplifier is selected, it gets the shared arguments. *)
Lemma selected_call_arguments a vertex_uvs uv_stride opts :
  call_arguments (selected_call a vertex_uvs uv_stride opts) = a.
Proof.
  unfold selected_call. destruct (attribute_source vertex_uvs opts); reflexivity.
Qed.

(** An invocation found in the trace is the one of a valid call. *)
Lemma invoked_call_inv
    destination indices index_count vertex_positions vertex_count
    vertex_stride vertex_uvs uv_stride options result s c :
  meshopt_simplify_with_uvs destination indices index_count vertex_positions
    vertex_count vertex_stride vertex_uvs uv_stride options result
  = Returned s ->
  In c (engine_calls s) ->
  exists idx positions opts t,
    indices = Some idx /\ vertex_positions = Some positions
    /\ options = Some opts
    /\ effective_target_index_count index_count opts = Some t
    /\ call_arguments c
       = engine_arguments idx index_count positions vertex_count
           vertex_stride opts t.
Proof.
  intros Hrun Hin.
  assert (Hcalls : engine_calls s <> [])
    by (intros E; rewrite E in Hin; exact Hin).
  destruct (reaches_engine_inv _ _ _ _ _ _ _ _ _ _ _ Hrun Hcalls)
    as (dst & idx & positions & opts & r & t & _ & -> & -> & -> & _ & _ & _
        & _ & Ht & ->).
  exists idx, positions, opts, t. repeat split; try assumption.
  destruct Hin as [<-|[]]. apply selected_call_arguments.
Qed.

End HandlerFacts.

(** ** The effective target index count *)

Section TargetFacts.

Variables (index_count : Z) (options : Options.MeshoptSimplifyOptions).

Lemma target_explicit :
  Options.target_index_count options <> 0 ->
  effective_target_index_count index_count options
  = Some (Options.target_index_count options).
Proof.
  intros H. apply Z.eqb_neq in H. unfold effective_target_index_count.
  rewrite H. cbn [andb]. rewrite H. reflexivity.
Qed.

Lemma target_fallback :
  Options.target_index_count options = 0 ->
  Float32.gt (Options.target_ratio options) Float32.zero = false ->
  effective_target_index_count index_count options = Some 3.
Proof.
  intros H Hr. unfold effective_target_index_count.
  rewrite H, Hr. reflexivity.
Qed.

(** The product of a [size_t] and a positive ratio converts to [size_t]
    when it is finite and below [2^64], and only then. *)
Lemma product_converts :
  0 <= index_count ->
  Float32.gt (Options.target_ratio options) Float32.zero = true ->
  (exists t,
     Float32.to_size (ratio_product index_count (Options.target_ratio options))
     = Some t)
  <-> Float32.is_finite
        (ratio_product index_count (Options.target_ratio options)) = true
      /\ (Float32.to_Q
            (ratio_product index_count (Options.target_ratio options))
          < inject_Z (2 ^ 64))%Q.
Proof.
  intros Hn Hr. apply Float32Facts.to_size_defined.
  pose proof (Float32Facts.product_sign index_count _ Hn Hr) as Hs.
  unfold ratio_product. destruct (Float32.mul _ _); auto.
Qed.

Lemma target_from_ratio :
  0 <= index_count ->
  Options.target_index_count options = 0 ->
  Float32.gt (Options.target_ratio options) Float32.zero = true ->
  Float32.is_finite
    (ratio_product index_count (Options.target_ratio options)) = true ->
  (Float32.to_Q (ratio_product index_count (Options.target_ratio options))
   < inject_Z (2 ^ 64))%Q ->
  effective_target_index_count index_count options
  = Some (at_least_one_triangle
            (rounded_ratio_target index_count (Options.target_ratio options))).
Proof.
  intros Hn H Hr Hfin Hlt.
  destruct (proj2 (product_converts Hn Hr) (conj Hfin Hlt)) as (t & Ht).
  unfold effective_target_index_count, rounded_ratio_target.
  rewrite H, Hr, Ht. cbn [andb Z.eqb].
  rewrite <- (Float32Facts.to_size_floor_third _ t); [reflexivity| |exact Ht].
  pose proof (Float32Facts.product_sign index_count _ Hn Hr) as Hs.
  unfold ratio_product. destruct (Float32.mul _ _); auto.
Qed.

(** Otherwise the conversion, and with it the call, is undefined. *)
Lemma target_undefined :
  0 <= index_count ->
  Options.target_index_count options = 0 ->
  Float32.gt (Options.target_ratio options) Float32.zero = true ->
  ~ (Float32.is_finite
       (ratio_product index_count (Options.target_ratio options)) = true
     /\ (Float32.to_Q
           (ratio_product index_count (Options.target_ratio options))
         < inject_Z (2 ^ 64))%Q) ->
  effective_target_index_count index_count options = None.
Proof.
  intros Hn H Hr Hnot. unfold effective_target_index_count.
  rewrite H, Hr. cbn [andb Z.eqb].
  destruct (Float32.to_size _) as [t|] eqn:Ht; [|reflexivity].
  elim Hnot. apply (product_converts Hn Hr). eauto.
Qed.

Lemma target_nonzero (t : Z) :
  effective_target_index_count index_count options = Some t -> t <> 0.
Proof.
  unfold effective_target_index_count.
  destruct (_ && _).
  - destruct (Float32.to_size _) as [u|]; [|discriminate].
    destruct (u / 3 * 3 =? 0) eqn:E; intros [= <-]; [lia|].
    apply Z.eqb_neq in E. exact E.
  - destruct (Options.target_index_count options =? 0) eqn:E;
      intros [= <-]; [lia|].
    apply Z.eqb_neq in E. exact E.
Qed.

(** Where the single-precision product is exact, rounding changes
    nothing. *)
Lemma rounded_exact :
  (Float32.to_Q (ratio_product index_count (Options.target_ratio options))
   == inject_Z index_count * Float32.to_Q (Options.target_ratio options))%Q ->
  rounded_ratio_target index_count (Options.target_ratio options)
  = exact_ratio_target index_count (Options.target_ratio options).
Proof.
  intros H. unfold rounded_ratio_target, exact_ratio_target.
  f_equal. apply Qfloor_comp. rewrite H. reflexivity.
Qed.

End TargetFacts.

(** ** The option word *)

Section OptionBits.

Context {engine : meshoptimizer}.

(** The two option bits are single bits of an [unsigned int]. *)
Variables (i j : Z).
Hypothesis lock_border_bit : meshopt_SimplifyLockBorder = 2 ^ i.
Hypothesis error_absolute_bit : meshopt_SimplifyErrorAbsolute = 2 ^ j.
Hypothesis i_range : 0 <= i < 32.
Hypothesis j_range : 0 <= j < 32.

Lemma testbit_to_unsigned (z k : Z) :
  0 <= k -> Z.testbit (to_unsigned z) k = (k <? 32) && Z.testbit z k.
Proof.
  intros Hk. unfold to_unsigned.
  destruct (k <? 32) eqn:E.
  - apply Z.ltb_lt in E. apply Z.mod_pow2_bits_low. exact E.
  - apply Z.ltb_ge in E. apply Z.mod_pow2_bits_high. lia.
Qed.

Lemma meshopt_options_bits (opts : Options.MeshoptSimplifyOptions) (k : Z) :
  0 <= k ->
  Z.testbit (meshopt_options opts) k
  = (negb (Options.lock_border opts =? 0) && (k =? i))
    || (negb (Options.error_is_absolute opts =? 0) && (k =? j)).
Proof.
  intros Hk. unfold meshopt_options.
  rewrite lock_border_bit, error_absolute_bit.
  destruct (Options.lock_border opts =? 0),
    (Options.error_is_absolute opts =? 0); cbn [negb andb orb];
    rewrite ?testbit_to_unsigned, ?Z.lor_spec, ?testbit_to_unsigned,
      ?Z.lor_spec, ?Z.pow2_bits_eqb, ?Z.bits_0 by lia;
    cbn [orb];
    rewrite 1?(Z.eqb_sym i k), 1?(Z.eqb_sym j k);
    destruct (k =? i) eqn:Ei, (k =? j) eqn:Ej, (k <? 32) eqn:E32;
    try reflexivity; apply Z.eqb_eq in Ei || apply Z.eqb_eq in Ej;
    apply Z.ltb_ge in E32; lia.
Qed.

Lemma meshopt_options_lor (opts : Options.MeshoptSimplifyOptions) :
  meshopt_options opts
  = Z.lor
      (if Options.lock_border opts =? 0 then 0 else meshopt_SimplifyLockBorder)
      (if Options.error_is_absolute opts =? 0 then 0
       else meshopt_SimplifyErrorAbsolute).
Proof.
  apply Z.bits_inj'. intros k Hk.
  rewrite meshopt_options_bits, Z.lor_spec by exact Hk.
  rewrite lock_border_bit, error_absolute_bit.
  destruct (Options.lock_border opts =? 0),
    (Options.error_is_absolute opts =? 0); cbn [negb andb orb];
    rewrite ?Z.pow2_bits_eqb, ?Z.bits_0 by lia;
    rewrite 1?(Z.eqb_sym i k), 1?(Z.eqb_sym j k); cbn [orb];
    rewrite ?orb_false_r; reflexivity.
Qed.

End OptionBits.

(** ** The stand-in engine *)

(** The stand-in engine honours the contract. *)
Lemma prefix_within_contract (dst : list Z) (a : simplify_arguments) :
  0 < arg_index_count a -> arg_index_count a mod 3 = 0 ->
  arg_index_count a <= Z.of_nat (List.length dst) ->
  0 <= Prefix.kept a <= arg_index_count a
  /\ Prefix.kept a mod 3 = 0
  /\ writes_within (arg_index_count a) dst (Prefix.write dst a).
Proof.
  intros Hn Hm Hroom. unfold Prefix.kept.
  set (t3 := 3 * (arg_target_index_count a / 3)).
  assert (Ht3 : t3 mod 3 = 0)
    by (unfold t3; rewrite Z.mul_comm; apply Z.mod_mul; lia).
  split; [lia|]. split.
  - destruct (Z.max_spec 0 (Z.min t3 (arg_index_count a))) as [[_ ->]|[_ ->]];
      [|reflexivity].
    destruct (Z.min_spec t3 (arg_index_count a)) as [[_ ->]|[_ ->]]; assumption.
  - unfold writes_within, Prefix.write, Prefix.kept. fold t3.
    set (k := Z.to_nat (Z.max 0 (Z.min t3 (arg_index_count a)))).
    assert (Hk : (List.length (firstn k (arg_indices a)) <= k)%nat)
      by apply firstn_le_length.
    assert (Hkn : Z.of_nat k <= arg_index_count a) by (subst k; lia).
    split.
    + rewrite length_app, length_skipn. lia.
    + intros i Hi.
      rewrite nth_error_app2 by lia.
      rewrite nth_error_skipn. f_equal. lia.
Qed.

Lemma prefix_engine_contract : engine_contract Prefix.engine.
Proof.
  intros dst a Hn Hm Hv Hroom.
  pose proof (prefix_within_contract dst a Hn Hm Hroom) as H.
  split; [exact H | intros b; exact H].
Qed.

Lemma prefix_engine_deterministic : deterministic_engine Prefix.engine.
Proof. intros d1 d2 a. repeat split. Qed.

(** * The properties of the specification *)

(** ** C1: null pointers *)

(** C1, where it fails and where it holds. A call whose [result] pointer is
    null has no defined outcome: the result is initialised through the
    pointer (lines 37-40) before the null test of line 43 is reached, so the
    test of [result] there comes too late. With a non-null [result], a call
    with a null [destination], [indices], [vertex_positions] or [options]
    returns without invoking the engine, leaves the destination as it was,
    and reports success 0 with the message "Null pointer in required
    parameter". *)
Theorem C1_null_pointers
    (engine : meshoptimizer)
    (destination indices : option (list Z)) (index_count : Z)
    (vertex_positions : option (list float32)) (vertex_count vertex_stride : Z)
    (vertex_uvs : option (list float32)) (uv_stride : Z)
    (options : option Options.MeshoptSimplifyOptions)
    (r : Result.MeshoptSimplifyResult) :
  meshopt_simplify_with_uvs destination indices index_count vertex_positions
    vertex_count vertex_stride vertex_uvs uv_stride options None
  = Undefined
  /\ (destination = None \/ indices = None \/ vertex_positions = None
        \/ options = None ->
      rejected_with "Null pointer in required parameter" destination
        (meshopt_simplify_with_uvs destination indices index_count
           vertex_positions vertex_count vertex_stride vertex_uvs uv_stride
           options (Some r))).
Proof.
  split.
  - apply null_result_undefined.
  - apply null_argument_rejected.
Qed.

(** The quad with every buffer in place and a null [result]; and with a
    null [options] reported through a stale result object. *)
Lemma C1_null_pointers_witness :
  meshopt_simplify_with_uvs (engine := Prefix.engine)
    (Some Quad.destination) (Some Quad.indices) 6 (Some Quad.positions)
    4 12 (Some Quad.uvs) 8 (Some Quad.options) None
  = Undefined
  /\ rejected_with "Null pointer in required parameter"
       (Some Quad.destination)
       (meshopt_simplify_with_uvs (engine := Prefix.engine)
          (Some Quad.destination) (Some Quad.indices) 6 (Some Quad.positions)
          4 12 (Some Quad.uvs) 8 None (Some Quad.stale_result)).
Proof.
  split.
  - apply (C1_null_pointers Prefix.engine _ _ _ _ _ _ _ _ _ Quad.stale_result).
  - apply (C1_null_pointers Prefix.engine). right. right. right. reflexivity.
Defined.

(** ** C2: the effective target index count *)

(** C2 as stated fails: with 33554433 indices (a multiple of 3 that single
    precision cannot represent) and a ratio of [1.0f], the specified target is
    33554433, while the code converts the count to 33554432.0f and arrives
    at 33554430. *)
Lemma C2_counterexample :
  effective_target_index_count 33554433 (ratio_only Float32.one)
  = Some 33554430
  /\ specified_target 33554433 (ratio_only Float32.one) = 33554433
  /\ effective_target_index_count 33554433 (ratio_only Float32.one)
     <> Some (specified_target 33554433 (ratio_only Float32.one)).
Proof. repeat split; vm_compute; (reflexivity || discriminate). Qed.

(** C2, amended. For a count that is a [size_t]: a nonzero
    [target_index_count] is the effective target; otherwise, when
    [target_ratio > 0] and the single-precision product
    [P = (float)index_count * target_ratio] is finite and below [2^64], the
    effective target is [floor(P / 3) * 3], clamped to 3 when it is 0, and
    this is the specified value whenever [P] is the exact product; when [P]
    is infinite or at least [2^64] its conversion to [size_t] is undefined
    and there is no effective target; when the ratio is not above 0 the
    effective target is 3. *)
Theorem C2_effective_target
    (index_count : Z) (options : Options.MeshoptSimplifyOptions) :
  0 <= index_count ->
  (Options.target_index_count options <> 0 ->
   effective_target_index_count index_count options
   = Some (Options.target_index_count options))
  /\ (Options.target_index_count options = 0 ->
      Float32.gt (Options.target_ratio options) Float32.zero = true ->
      Float32.is_finite
        (ratio_product index_count (Options.target_ratio options)) = true ->
      (Float32.to_Q (ratio_product index_count (Options.target_ratio options))
       < inject_Z (2 ^ 64))%Q ->
      effective_target_index_count index_count options
      = Some (at_least_one_triangle
                (rounded_ratio_target index_count
                   (Options.target_ratio options)))
      /\ ((Float32.to_Q
             (ratio_product index_count (Options.target_ratio options))
           == inject_Z index_count
              * Float32.to_Q (Options.target_ratio options))%Q ->
          effective_target_index_count index_count options
          = Some (specified_target index_count options)))
  /\ (Options.target_index_count options = 0 ->
      Float32.gt (Options.target_ratio options) Float32.zero = true ->
      ~ (Float32.is_finite
           (ratio_product index_count (Options.target_ratio options)) = true
         /\ (Float32.to_Q
               (ratio_product index_count (Options.target_ratio options))
             < inject_Z (2 ^ 64))%Q) ->
      effective_target_index_count index_count options = None)
  /\ (Options.target_index_count options = 0 ->
      Float32.gt (Options.target_ratio options) Float32.zero = false ->
      effective_target_index_count index_count options = Some 3).
Proof.
  intros Hn. split; [|split; [|split]].
  - apply target_explicit.
  - intros H0 Hr Hfin Hlt.
    pose proof (target_from_ratio index_count options Hn H0 Hr Hfin Hlt) as E.
    split; [exact E|].
    intros Hexact. rewrite E. unfold specified_target.
    rewrite H0, Hr. cbn [Z.eqb].
    rewrite (rounded_exact index_count options Hexact). reflexivity.
  - apply target_undefined. exact Hn.
  - apply target_fallback.
Qed.

(** The cube of the specification: 36 indices at a ratio of [0.5f] give 18. *)
Lemma C2_effective_target_witness :
  0 <= 36
  /\ effective_target_index_count 36 (ratio_only Float32.half) = Some 18.
Proof.
  split; [lia|].
  destruct (C2_effective_target 36 (ratio_only Float32.half)) as (_ & H & _);
    [lia|].
  destruct (H eq_refl eq_refl eq_refl) as (_ & E); [vm_compute; reflexivity|].
  rewrite E; [reflexivity|].
  vm_compute. reflexivity.
Defined.

(** The conversion behind it: 33554433 becomes [2^25] = 33554432. *)
Example count_not_representable :
  Float32.of_size 33554433 = S754_finite false 8388608 2
  /\ Float32.to_size (ratio_product 33554433 Float32.one) = Some 33554432.
Proof. split; reflexivity. Qed.

(** Rounding shows on small meshes too. [0.7f] is the float
    0.699999988079071...; thirty times that is 20.99999964..., which single
    precision rounds to 21: the code keeps 21 indices where the exact
    product truncates to 18. *)
Example rounding_up_to_a_triangle :
  effective_target_index_count 30
    (ratio_only (S754_finite false 11744051 (-24))) = Some 21
  /\ exact_ratio_target 30 (S754_finite false 11744051 (-24)) = 18.
Proof. split; vm_compute; reflexivity. Qed.

(** A product too large for [size_t]: three indices at a ratio of [2^99]. *)
Example product_out_of_range :
  effective_target_index_count 3 (ratio_only Float32.huge) = None.
Proof. reflexivity. Qed.

(** ** C3: the choice of the engine path *)

(** C3. A call that passes all validation (and whose target derivation is
    defined) returns after exactly one engine invocation; that invocation is
    [meshopt_simplifyWithAttributes] if and only if [vertex_uvs] is non-null
    and [uv_weight > 0]; it then passes the UV buffer and its stride, two
    attributes, both weighted by [uv_weight], and a null lock array; in
    every other case the invocation is [meshopt_simplify]. *)
Theorem C3_variant_selection
    (engine : meshoptimizer)
    (dst idx : list Z) (index_count : Z) (positions : list float32)
    (vertex_count vertex_stride : Z)
    (vertex_uvs : option (list float32)) (uv_stride : Z)
    (opts : Options.MeshoptSimplifyOptions)
    (r : Result.MeshoptSimplifyResult) (t : Z) :
  index_count <> 0 -> vertex_count <> 0 -> index_count mod 3 = 0 ->
  effective_target_index_count index_count opts = Some t ->
  exists s a,
    meshopt_simplify_with_uvs (Some dst) (Some idx) index_count
      (Some positions) vertex_count vertex_stride vertex_uvs uv_stride
      (Some opts) (Some r) = Returned s
    /\ ((exists b, engine_calls s = [Call_simplifyWithAttributes a b])
        <-> vertex_uvs <> None
            /\ Float32.gt (Options.uv_weight opts) Float32.zero = true)
    /\ (forall b,
          engine_calls s = [Call_simplifyWithAttributes a b] ->
          vertex_uvs = Some (arg_vertex_attributes b)
          /\ arg_vertex_attributes_stride b = uv_stride
          /\ arg_attribute_count b = 2
          /\ arg_attribute_weights b
             = [Options.uv_weight opts; Options.uv_weight opts]
          /\ arg_vertex_lock b = None)
    /\ (vertex_uvs = None
        \/ Float32.gt (Options.uv_weight opts) Float32.zero = false ->
        engine_calls s = [Call_simplify a]).
Proof.
  intros Hi Hv Hm Ht.
  eexists. eexists. split.
  - apply (valid_call_returns _ _ _ _ _ _ _ _ _ _ t Hi Hv Hm Ht).
  - cbn [simplified engine_calls]. unfold selected_call, attribute_source.
    destruct vertex_uvs as [uvs|];
      [destruct (Float32.gt (Options.uv_weight opts) Float32.zero)|].
    + split; [|split].
      * split; [intros _; split; [discriminate|reflexivity] | eauto].
      * intros b' [= <-]. repeat split.
      * intros [H|H]; discriminate.
    + split; [|split].
      * split; [intros (b' & H); discriminate | intros (_ & H); discriminate].
      * intros b' H. discriminate.
      * reflexivity.
    + split; [|split].
      * split; [intros (b' & H); discriminate | intros (H & _); now elim H].
      * intros b' H. discriminate.
      * reflexivity.
Qed.

(** The quad with UVs and a positive weight goes down the attribute-aware
    path. *)
Lemma C3_variant_selection_witness :
  exists s a,
    meshopt_simplify_with_uvs (engine := Prefix.engine)
      (Some Quad.destination) (Some Quad.indices) 6 (Some Quad.positions)
      4 12 (Some Quad.uvs) 8 (Some Quad.options) (Some Quad.stale_result)
    = Returned s
    /\ engine_calls s
       = [Call_simplifyWithAttributes a
            {| arg_vertex_attributes := Quad.uvs;
               arg_vertex_attributes_stride := 8;
               arg_attribute_weights := [Float32.one; Float32.one];
               arg_attribute_count := 2;
               arg_vertex_lock := None |}].
Proof.
  destruct (C3_variant_selection Prefix.engine Quad.destination Quad.indices 6
              Quad.positions 4 12 (Some Quad.uvs) 8 Quad.options
              Quad.stale_result 3)
    as (s & a & Hrun & Hiff & Hatt & _);
    [lia | lia | reflexivity | reflexivity |].
  exists s, a. split; [exact Hrun|].
  destruct Hiff as [_ Hback].
  destruct Hback as (b & Hb); [split; [discriminate|reflexivity]|].
  destruct (Hatt b Hb) as (Hu & Hs & Hc & Hw & Hl).
  rewrite Hb. destruct b as [bu bs bw bc bl]. cbn in Hu, Hs, Hc, Hw, Hl.
  injection Hu as <-. subst. reflexivity.
Defined.

(** ** C4: mesh validation *)

(** C4. With all required pointers non-null: if [index_count] or
    [vertex_count] is 0 the call is rejected with "Empty mesh (zero indices
    or vertices)"; otherwise, if [index_count] is not a multiple of 3, it is
    rejected with "Index count must be multiple of 3". Rejected means: the
    call returns with success 0, that message, index count 0, error 0.0, no
    engine invocation and the destination untouched. The empty-mesh test
    comes first: it decides also when the count is not a multiple of 3. *)
Theorem C4_mesh_validation
    (engine : meshoptimizer)
    (dst idx : list Z) (index_count : Z) (positions : list float32)
    (vertex_count vertex_stride : Z)
    (vertex_uvs : option (list float32)) (uv_stride : Z)
    (opts : Options.MeshoptSimplifyOptions)
    (r : Result.MeshoptSimplifyResult) :
  (index_count = 0 \/ vertex_count = 0 ->
   rejected_with "Empty mesh (zero indices or vertices)" (Some dst)
     (meshopt_simplify_with_uvs (Some dst) (Some idx) index_count
        (Some positions) vertex_count vertex_stride vertex_uvs uv_stride
        (Some opts) (Some r)))
  /\ (index_count <> 0 -> vertex_count <> 0 -> index_count mod 3 <> 0 ->
      rejected_with "Index count must be multiple of 3" (Some dst)
        (meshopt_simplify_with_uvs (Some dst) (Some idx) index_count
           (Some positions) vertex_count vertex_stride vertex_uvs uv_stride
           (Some opts) (Some r))).
Proof.
  split.
  - apply empty_mesh_rejected.
  - apply not_triangles_rejected.
Qed.

(** Seven indices and no vertices: the empty-mesh message wins; seven
    indices and four vertices: the multiple-of-3 message. *)
Lemma C4_mesh_validation_witness :
  rejected_with "Empty mesh (zero indices or vertices)" (Some Quad.destination)
    (meshopt_simplify_with_uvs (engine := Prefix.engine)
       (Some Quad.destination) (Some Quad.indices) 7 (Some Quad.positions)
       0 12 None 8 (Some Quad.options) (Some Quad.stale_result))
  /\ rejected_with "Index count must be multiple of 3" (Some Quad.destination)
       (meshopt_simplify_with_uvs (engine := Prefix.engine)
          (Some Quad.destination) (Some Quad.indices) 7 (Some Quad.positions)
          4 12 None 8 (Some Quad.options) (Some Quad.stale_result)).
Proof.
  split.
  - apply (C4_mesh_validation Prefix.engine). right. reflexivity.
  - apply (C4_mesh_validation Prefix.engine); [lia | lia | vm_compute; lia].
Defined.

(** ** C5: bounds on the result *)

(** C5. Under the engine's contract, a call on a valid mesh (non-null
    pointers, nonzero counts, [index_count] a multiple of 3, a destination
    with room for [index_count] entries, a defined target derivation)
    returns a result whose index count is a multiple of 3 and at most
    [index_count], and leaves the destination as it was beyond its first
    [index_count] entries. *)
Theorem C5_result_bounds
    (engine : meshoptimizer)
    (dst idx : list Z) (index_count : Z) (positions : list float32)
    (vertex_count vertex_stride : Z)
    (vertex_uvs : option (list float32)) (uv_stride : Z)
    (opts : Options.MeshoptSimplifyOptions)
    (r : Result.MeshoptSimplifyResult) (t : Z) :
  engine_contract engine ->
  0 < index_count -> 0 < vertex_count -> index_count mod 3 = 0 ->
  index_count <= Z.of_nat (List.length dst) ->
  effective_target_index_count index_count opts = Some t ->
  exists s after,
    meshopt_simplify_with_uvs (Some dst) (Some idx) index_count
      (Some positions) vertex_count vertex_stride vertex_uvs uv_stride
      (Some opts) (Some r) = Returned s
    /\ destination_after s = Some after
    /\ Result.success (result_after s) = 1
    /\ Result.index_count (result_after s) mod 3 = 0
    /\ 0 <= Result.index_count (result_after s) <= index_count
    /\ writes_within index_count dst after.
Proof.
  intros Hc Hi Hv Hm Hroom Ht.
  eexists. eexists. split.
  - apply (valid_call_returns _ _ _ _ _ _ _ _ _ _ t);
      [lia | lia | exact Hm | exact Ht].
  - cbn [simplified destination_after result_after package
           Result.index_count Result.success].
    split; [reflexivity|]. split; [reflexivity|].
    set (a := engine_arguments idx index_count positions vertex_count
                vertex_stride opts t).
    destruct (Hc dst a Hi Hm Hv Hroom) as [Hs Ha].
    unfold selected_call.
    destruct (attribute_source vertex_uvs opts) as [uvs|]; cbn [engine_reply].
    + destruct (Ha (uv_arguments uvs uv_stride opts)) as (Hb & H3 & Hw).
      cbn [arg_index_count a engine_arguments] in Hb, Hw. auto.
    + destruct Hs as (Hb & H3 & Hw).
      cbn [arg_index_count a engine_arguments] in Hb, Hw. auto.
Qed.

(** The quad simplified to half its indices by the stand-in engine. *)
Lemma C5_result_bounds_witness :
  exists s after,
    meshopt_simplify_with_uvs (engine := Prefix.engine)
      (Some Quad.destination) (Some Quad.indices) 6 (Some Quad.positions)
      4 12 (Some Quad.uvs) 8 (Some Quad.options) (Some Quad.stale_result)
    = Returned s
    /\ destination_after s = Some after
    /\ Result.success (result_after s) = 1
    /\ Result.index_count (result_after s) mod 3 = 0
    /\ 0 <= Result.index_count (result_after s) <= 6
    /\ writes_within 6 Quad.destination after.
Proof.
  apply (C5_result_bounds Prefix.engine Quad.destination Quad.indices 6
           Quad.positions 4 12 (Some Quad.uvs) 8 Quad.options
           Quad.stale_result 3).
  - exact prefix_engine_contract.
  - lia.
  - lia.
  - reflexivity.
  - vm_compute. discriminate.
  - reflexivity.
Defined.

(** ** C6: packaging the engine's outputs *)

(** C6. A call that reached the engine made one invocation, and its result
    has success 1, the index count the engine returned, the error the engine
    left in its out-parameter, both unchanged, and an empty message. *)
Theorem C6_packaging
    (engine : meshoptimizer)
    (destination indices : option (list Z)) (index_count : Z)
    (vertex_positions : option (list float32)) (vertex_count vertex_stride : Z)
    (vertex_uvs : option (list float32)) (uv_stride : Z)
    (options : option Options.MeshoptSimplifyOptions)
    (result : option Result.MeshoptSimplifyResult) (s : final_state) :
  meshopt_simplify_with_uvs destination indices index_count vertex_positions
    vertex_count vertex_stride vertex_uvs uv_stride options result
  = Returned s ->
  engine_calls s <> [] ->
  exists dst c,
    destination = Some dst
    /\ engine_calls s = [c]
    /\ Result.success (result_after s) = 1
    /\ Result.index_count (result_after s)
       = new_index_count (engine_reply dst c)
    /\ Result.result_error (result_after s)
       = out_result_error (engine_reply dst c)
    /\ CString.read (Result.error_message (result_after s)) = EmptyString.
Proof.
  intros Hrun Hcalls.
  destruct (reaches_engine_inv _ _ _ _ _ _ _ _ _ _ _ Hrun Hcalls)
    as (dst & idx & positions & opts & r & t & -> & _ & _ & _ & _ & _ & _ & _
        & _ & ->).
  eexists. eexists. repeat split.
  apply CStringFacts.read_initialised.
Qed.

(** On the quad, the stand-in engine keeps one triangle and reports the UV
    weight as its error; the result carries exactly that. *)
Lemma C6_packaging_witness :
  exists s,
    meshopt_simplify_with_uvs (engine := Prefix.engine)
      (Some Quad.destination) (Some Quad.indices) 6 (Some Quad.positions)
      4 12 (Some Quad.uvs) 8 (Some Quad.options) (Some Quad.stale_result)
    = Returned s
    /\ Result.success (result_after s) = 1
    /\ Result.index_count (result_after s) = 3
    /\ Result.result_error (result_after s) = Float32.one
    /\ CString.read (Result.error_message (result_after s)) = EmptyString.
Proof.
  eexists. split; [reflexivity|].
  destruct (C6_packaging Prefix.engine
              (Some Quad.destination) (Some Quad.indices) 6
              (Some Quad.positions) 4 12 (Some Quad.uvs) 8
              (Some Quad.options) (Some Quad.stale_result) _ eq_refl)
    as (dst & c & Hd & Hc & Hs & Hn & He & Hm); [discriminate|].
  injection Hd as <-. injection Hc as <-.
  repeat split; assumption.
Defined.

(** ** C7: the option word *)

(** C7. The engine's two option bits being distinct single bits of an
    [unsigned int] (bit [i] locks the border, bit [j] makes the error
    absolute), the option word of every engine invocation is the bitwise OR
    of the lock-border bit, present exactly when [lock_border] is nonzero,
    and of the absolute-error bit, present exactly when [error_is_absolute]
    is nonzero: bit [i] tells the one, bit [j] the other, and every other
    bit is clear. *)
Theorem C7_option_flags
    (engine : meshoptimizer) (i j : Z)
    (destination indices : option (list Z)) (index_count : Z)
    (vertex_positions : option (list float32)) (vertex_count vertex_stride : Z)
    (vertex_uvs : option (list float32)) (uv_stride : Z)
    (options : option Options.MeshoptSimplifyOptions)
    (result : option Result.MeshoptSimplifyResult)
    (s : final_state) (c : engine_call) :
  meshopt_SimplifyLockBorder = 2 ^ i ->
  meshopt_SimplifyErrorAbsolute = 2 ^ j ->
  0 <= i < 32 -> 0 <= j < 32 -> i <> j ->
  meshopt_simplify_with_uvs destination indices index_count vertex_positions
    vertex_count vertex_stride vertex_uvs uv_stride options result
  = Returned s ->
  In c (engine_calls s) ->
  exists opts,
    options = Some opts
    /\ arg_options (call_arguments c)
       = Z.lor
           (if Options.lock_border opts =? 0 then 0
            else meshopt_SimplifyLockBorder)
           (if Options.error_is_absolute opts =? 0 then 0
            else meshopt_SimplifyErrorAbsolute)
    /\ Z.testbit (arg_options (call_arguments c)) i
       = negb (Options.lock_border opts =? 0)
    /\ Z.testbit (arg_options (call_arguments c)) j
       = negb (Options.error_is_absolute opts =? 0)
    /\ forall k, 0 <= k -> k <> i -> k <> j ->
         Z.testbit (arg_options (call_arguments c)) k = false.
Proof.
  intros Hlb Hea Hi Hj Hij Hrun Hin.
  destruct (invoked_call_inv _ _ _ _ _ _ _ _ _ _ _ _ Hrun Hin)
    as (idx & positions & opts & t & _ & _ & -> & _ & ->).
  exists opts. split; [reflexivity|].
  cbn [engine_arguments arg_options].
  split; [apply (meshopt_options_lor i j Hlb Hea Hi Hj)|].
  pose proof (meshopt_options_bits i j Hlb Hea Hi Hj opts) as Hbits.
  split; [|split].
  - rewrite Hbits by lia. rewrite Z.eqb_refl.
    replace (i =? j) with false by (symmetry; apply Z.eqb_neq; exact Hij).
    rewrite andb_true_r, andb_false_r, orb_false_r. reflexivity.
  - rewrite Hbits by lia. rewrite Z.eqb_refl.
    replace (j =? i) with false by (symmetry; apply Z.eqb_neq; lia).
    rewrite andb_true_r, andb_false_r. reflexivity.
  - intros k Hk Hki Hkj. rewrite Hbits by exact Hk.
    apply Z.eqb_neq in Hki, Hkj. rewrite Hki, Hkj, !andb_false_r. reflexivity.
Qed.

(** With the bits of meshoptimizer 0.21 (1 and 4) and both options set, the
    engine receives 5. *)
Lemma C7_option_flags_witness :
  exists s c,
    meshopt_simplify_with_uvs (engine := Prefix.engine)
      (Some Quad.destination) (Some Quad.indices) 6 (Some Quad.positions)
      4 12 (Some Quad.uvs) 8 (Some Quad.options) (Some Quad.stale_result)
    = Returned s
    /\ In c (engine_calls s)
    /\ arg_options (call_arguments c) = 5.
Proof.
  eexists. eexists. split; [reflexivity|]. split; [left; reflexivity|].
  destruct (C7_option_flags Prefix.engine 0 2
              (Some Quad.destination) (Some Quad.indices) 6
              (Some Quad.positions) 4 12 (Some Quad.uvs) 8
              (Some Quad.options) (Some Quad.stale_result) _ _
              eq_refl eq_refl ltac:(lia) ltac:(lia) ltac:(lia) eq_refl
              (or_introl eq_refl))
    as (opts & Ho & Hlor & _).
  injection Ho as <-. exact Hlor.
Defined.

(** ** C8: the target handed to the engine *)

(** C8. The target index count of every engine invocation is the effective
    target of the call; it is never 0; and a nonzero [target_index_count]
    of the caller is handed over as it is, multiple of 3 or not. *)
Theorem C8_target_passed
    (engine : meshoptimizer)
    (destination indices : option (list Z)) (index_count : Z)
    (vertex_positions : option (list float32)) (vertex_count vertex_stride : Z)
    (vertex_uvs : option (list float32)) (uv_stride : Z)
    (options : option Options.MeshoptSimplifyOptions)
    (result : option Result.MeshoptSimplifyResult)
    (s : final_state) (c : engine_call) :
  meshopt_simplify_with_uvs destination indices index_count vertex_positions
    vertex_count vertex_stride vertex_uvs uv_stride options result
  = Returned s ->
  In c (engine_calls s) ->
  exists opts,
    options = Some opts
    /\ effective_target_index_count index_count opts
       = Some (arg_target_index_count (call_arguments c))
    /\ arg_target_index_count (call_arguments c) <> 0
    /\ (Options.target_index_count opts <> 0 ->
        arg_target_index_count (call_arguments c)
        = Options.target_index_count opts).
Proof.
  intros Hrun Hin.
  destruct (invoked_call_inv _ _ _ _ _ _ _ _ _ _ _ _ Hrun Hin)
    as (idx & positions & opts & t & _ & _ & -> & Ht & ->).
  exists opts. split; [reflexivity|].
  cbn [engine_arguments arg_target_index_count].
  split; [exact Ht|]. split.
  - exact (target_nonzero index_count opts t Ht).
  - intros Hnz. rewrite (target_explicit index_count opts Hnz) in Ht.
    injection Ht as <-. reflexivity.
Qed.

(** The quad with [target_index_count = 1]: the engine is asked for 1. *)
Lemma C8_target_passed_witness :
  exists s c,
    meshopt_simplify_with_uvs (engine := Prefix.engine)
      (Some Quad.destination) (Some Quad.indices) 6 (Some Quad.positions)
      4 12 None 8
      (Some (Options.Build 1 Float32.half Float32.zero Float32.zero 0 0))
      (Some Quad.stale_result)
    = Returned s
    /\ In c (engine_calls s)
    /\ arg_target_index_count (call_arguments c) = 1.
Proof.
  eexists. eexists. split; [reflexivity|]. split; [left; reflexivity|].
  destruct (C8_target_passed Prefix.engine
              (Some Quad.destination) (Some Quad.indices) 6
              (Some Quad.positions) 4 12 None 8
              (Some (Options.Build 1 Float32.half Float32.zero Float32.zero 0 0))
              (Some Quad.stale_result) _ _ eq_refl (or_introl eq_refl))
    as (opts & Ho & _ & _ & Has_is).
  injection Ho as <-. apply Has_is. discriminate.
Defined.

(** ** C9: determinism *)

(** C9. With an engine that is a function of its inputs, two calls on the
    same inputs and options give the caller the same index count, error,
    success flag and message, whatever their two destination buffers and
    their two result objects held before. The handler has no state of its
    own: its outcome is a function of its arguments and of the engine. *)
Theorem C9_deterministic
    (engine : meshoptimizer)
    (indices : option (list Z)) (index_count : Z)
    (vertex_positions : option (list float32)) (vertex_count vertex_stride : Z)
    (vertex_uvs : option (list float32)) (uv_stride : Z)
    (options : option Options.MeshoptSimplifyOptions)
    (d1 d2 : list Z) (r1 r2 : Result.MeshoptSimplifyResult) :
  deterministic_engine engine ->
  observable
    (meshopt_simplify_with_uvs (Some d1) indices index_count vertex_positions
       vertex_count vertex_stride vertex_uvs uv_stride options (Some r1))
  = observable
      (meshopt_simplify_with_uvs (Some d2) indices index_count vertex_positions
         vertex_count vertex_stride vertex_uvs uv_stride options (Some r2)).
Proof.
  intros Hdet. unfold meshopt_simplify_with_uvs.
  destruct indices as [idx|], vertex_positions as [positions|],
    options as [opts|]; try reflexivity.
  destruct ((index_count =? 0) || (vertex_count =? 0)); [reflexivity|].
  destruct (negb (index_count mod 3 =? 0)); [reflexivity|].
  destruct (effective_target_index_count index_count opts) as [t|];
    [|reflexivity].
  match goal with
  | |- context [attribute_source _ _] =>
      destruct (attribute_source vertex_uvs opts) as [uvs|]
  end;
  cbn [observable result_after package Result.index_count Result.result_error
         Result.success Result.error_message];
  rewrite !CStringFacts.read_initialised.
  - match goal with
    | |- context [meshopt_simplifyWithAttributes d1 ?a ?b] =>
        destruct (Hdet d1 d2 a) as (_ & _ & H); destruct (H b) as (-> & ->)
    end.
    reflexivity.
  - match goal with
    | |- context [meshopt_simplify d1 ?a] =>
        destruct (Hdet d1 d2 a) as (-> & -> & _)
    end.
    reflexivity.
Qed.

(** Two runs on the quad, into two different buffers and result objects. *)
Lemma C9_deterministic_witness :
  observable
    (meshopt_simplify_with_uvs (engine := Prefix.engine)
       (Some Quad.destination) (Some Quad.indices) 6 (Some Quad.positions)
       4 12 (Some Quad.uvs) 8 (Some Quad.options) (Some Quad.stale_result))
  = observable
      (meshopt_simplify_with_uvs (engine := Prefix.engine)
         (Some [0; 0; 0; 0; 0; 0]) (Some Quad.indices) 6 (Some Quad.positions)
         4 12 (Some Quad.uvs) 8 (Some Quad.options)
         (Some (Result.Build 0 Float32.zero 0 (repeat x00 256)))).
Proof.
  apply (C9_deterministic Prefix.engine). exact prefix_engine_deterministic.
Defined.

(** ** C10: ratios outside (0, 1] *)

(** C10 as stated fails: with 33554433 indices and a ratio of [2.0f] the
    specified target is 67108866, while the code arrives at 67108863. *)
Lemma C10_counterexample :
  Float32.gt Float32.two Float32.one = true
  /\ effective_target_index_count 33554433 (ratio_only Float32.two)
     = Some 67108863
  /\ exact_ratio_target 33554433 Float32.two = 67108866
  /\ effective_target_index_count 33554433 (ratio_only Float32.two)
     <> Some (exact_ratio_target 33554433 Float32.two).
Proof. repeat split; vm_compute; (reflexivity || discriminate). Qed.

(** C10, amended. The ratio is not checked against (0, 1]. With
    [target_index_count = 0] and a count that is a [size_t]: for
    [target_ratio > 1], when the single-precision product
    [P = (float)index_count * target_ratio] is finite and below [2^64], the
    effective target is [floor(P / 3) * 3] (3 if that is 0); it is what a
    valid call hands to the engine, with no comparison against
    [index_count], which it can exceed (6 indices at [2.0f] give 12); for
    [target_ratio < 0] the effective target is 3, as without a ratio. *)
Theorem C10_ratio_unchecked
    (engine : meshoptimizer)
    (index_count : Z) (opts : Options.MeshoptSimplifyOptions) :
  0 <= index_count ->
  Options.target_index_count opts = 0 ->
  (Float32.gt (Options.target_ratio opts) Float32.one = true ->
   Float32.is_finite
     (ratio_product index_count (Options.target_ratio opts)) = true ->
   (Float32.to_Q (ratio_product index_count (Options.target_ratio opts))
    < inject_Z (2 ^ 64))%Q ->
   let target :=
     at_least_one_triangle
       (rounded_ratio_target index_count (Options.target_ratio opts)) in
   effective_target_index_count index_count opts = Some target
   /\ forall dst idx positions vertex_count vertex_stride vertex_uvs
             uv_stride r,
        index_count <> 0 -> vertex_count <> 0 -> index_count mod 3 = 0 ->
        exists s c,
          meshopt_simplify_with_uvs (Some dst) (Some idx) index_count
            (Some positions) vertex_count vertex_stride vertex_uvs uv_stride
            (Some opts) (Some r) = Returned s
          /\ engine_calls s = [c]
          /\ arg_target_index_count (call_arguments c) = target)
  /\ (Float32.gt Float32.zero (Options.target_ratio opts) = true ->
      effective_target_index_count index_count opts = Some 3)
  /\ effective_target_index_count 6 (ratio_only Float32.two) = Some 12.
Proof.
  intros Hn H0. split; [|split].
  - intros Hr Hfin Hlt target.
    assert (E : effective_target_index_count index_count opts = Some target)
      by (apply (target_from_ratio index_count opts Hn H0);
          [apply Float32Facts.gt_one_gt_zero; exact Hr | exact Hfin | exact Hlt]).
    split; [exact E|].
    intros dst idx positions vertex_count vertex_stride vertex_uvs uv_stride r
           Hi Hv Hm.
    eexists. exists (selected_call
                       (engine_arguments idx index_count positions
                          vertex_count vertex_stride opts target)
                       vertex_uvs uv_stride opts).
    split; [|split].
    + apply (valid_call_returns _ _ _ _ _ _ _ _ _ _ target Hi Hv Hm E).
    + reflexivity.
    + rewrite selected_call_arguments. reflexivity.
  - intros Hr. apply target_fallback; [exact H0|].
    apply Float32Facts.lt_zero_not_gt_zero. exact Hr.
  - vm_compute. reflexivity.
Qed.

(** Six indices at [2.0f] are a target of 12; at [-1.0f], of 3. *)
Lemma C10_ratio_unchecked_witness :
  effective_target_index_count 6 (ratio_only Float32.two) = Some 12
  /\ effective_target_index_count 6 (ratio_only Float32.minus_one) = Some 3.
Proof.
  split.
  - destruct (C10_ratio_unchecked Prefix.engine 6 (ratio_only Float32.two))
      as (H & _ & _); [lia | reflexivity |].
    destruct (H eq_refl eq_refl) as (E & _); [vm_compute; reflexivity|].
    rewrite E. vm_compute. reflexivity.
  - destruct (C10_ratio_unchecked Prefix.engine 6
                (ratio_only Float32.minus_one)) as (_ & H & _);
      [lia | reflexivity |].
    apply H. reflexivity.
Defined.

(** * Further properties of the handler *)

(** ** Normal floats *)

Module Float32Normal.

Lemma digits2_pos_bounds (p : positive) :
  2 ^ (Zpos (digits2_pos p) - 1) <= Zpos p < 2 ^ Zpos (digits2_pos p).
Proof.
  induction p as [p IH|p IH|]; cbn [digits2_pos].
  - rewrite Pos2Z.inj_succ. replace (Z.succ (Zpos (digits2_pos p)) - 1) with (Z.succ (Zpos (digits2_pos p) - 1)) by lia.
    rewrite !Z.pow_succ_r by lia. lia.
  - rewrite Pos2Z.inj_succ. replace (Z.succ (Zpos (digits2_pos p)) - 1) with (Z.succ (Zpos (digits2_pos p) - 1)) by lia.
    rewrite !Z.pow_succ_r by lia. lia.
  - cbn. lia.
Qed.

Lemma iter_xO_value (p k : positive) :
  Zpos (Pos.iter xO p k) = Zpos p * 2 ^ Zpos k.
Proof.
  induction k as [|k IH] using Pos.peano_ind.
  - cbn. lia.
  - rewrite Pos.iter_succ, Pos2Z.inj_succ, Z.pow_succ_r by lia.
    rewrite Pos2Z.inj_xO, IH. lia.
Qed.

Lemma iter_xO_digits (p k : positive) :
  digits2_pos (Pos.iter xO p k) = (digits2_pos p + k)%positive.
Proof.
  induction k as [|k IH] using Pos.peano_ind.
  - cbn. lia.
  - rewrite Pos.iter_succ. cbn [digits2_pos]. rewrite IH. lia.
Qed.

(** A canonical mantissa within the exponent range is left as it is. *)
Lemma binary_round_aux_canonical (s : bool) (m : positive) (e : Z) :
  bounded Float32.prec Float32.emax m e = true ->
  binary_round_aux Float32.prec Float32.emax s (Zpos m) e loc_Exact
  = S754_finite s m e.
Proof.
  unfold bounded, canonical_mantissa. intros H.
  apply andb_true_iff in H. destruct H as [Hc He].
  apply Z.eqb_eq in Hc.
  unfold binary_round_aux, shr_fexp. cbn [Zdigits2].
  rewrite Hc, Z.sub_diag. cbn [shr shr_record_of_loc shr_m loc_of_shr_record round_nearest_even Zdigits2].
  rewrite Hc, Z.sub_diag. cbn [shr shr_record_of_loc shr_m]. rewrite He. reflexivity.
Qed.

Lemma fexp_normal (x : Z) :
  -125 <= x -> fexp Float32.prec Float32.emax x = x - 24.
Proof.
  intros H. unfold fexp, emin, Float32.prec, Float32.emax. lia.
Qed.

Lemma bounded_normal (m : positive) (e : Z) :
  Zpos (digits2_pos m) = 24 -> -149 <= e <= 104 ->
  bounded Float32.prec Float32.emax m e = true.
Proof.
  intros Hd He. unfold bounded, canonical_mantissa.
  rewrite Hd, fexp_normal by lia.
  apply andb_true_iff. split; [apply Z.eqb_eq; lia|].
  apply Z.leb_le. unfold Float32.prec, Float32.emax. lia.
Qed.

(** A count below [2^24] converts to the float of that very value. *)
Lemma of_size_exact (n : Z) :
  0 < n < 2 ^ 24 ->
  exists m e,
    Float32.of_size n = S754_finite false m e
    /\ Zpos (digits2_pos m) = 24
    /\ -23 <= e <= 0
    /\ Zpos m = n * 2 ^ (- e).
Proof.
  intros [Hpos Hlt]. destruct n as [|p|p]; try lia.
  pose proof (digits2_pos_bounds p) as Hb.
  set (d := Zpos (digits2_pos p)) in *.
  assert (Hd : 1 <= d <= 24).
  { split; [unfold d; lia|].
    destruct (Z_le_gt_dec d 24) as [H|H]; [exact H|exfalso].
    assert (2 ^ 24 <= 2 ^ (d - 1)) by (apply Z.pow_le_mono_r; lia). lia. }
  unfold Float32.of_size, binary_normalize, binary_round, shl_align.
  fold d. rewrite fexp_normal by lia.
  replace (d + 0 - 24 - 0) with (d - 24) by lia.
  destruct (d - 24) as [|k|k] eqn:Hk; try lia.
  - exists p, 0. replace (d + 0 - 24) with 0 by lia.
    rewrite binary_round_aux_canonical by (apply bounded_normal; fold d; lia).
    repeat split; try lia.
  - exists (Pos.iter xO p k), (d + 0 - 24).
    assert (Hdig : Zpos (digits2_pos (Pos.iter xO p k)) = 24)
      by (rewrite iter_xO_digits, Pos2Z.inj_add; fold d; lia).
    rewrite binary_round_aux_canonical by (apply bounded_normal; lia).
    repeat split; try lia.
    rewrite iter_xO_value. f_equal. f_equal. lia.
Qed.

Lemma shr_23 (m : positive) :
  iter_pos shr_1 23
    {| shr_m := Zpos (Pos.iter xO m 23); shr_r := false; shr_s := false |}
  = {| shr_m := Zpos m; shr_r := false; shr_s := false |}.
Proof. reflexivity. Qed.

(** Multiplying a normal float by a power of two only moves its exponent,
    as long as the result stays normal. *)
Lemma mul_power_of_two (m : positive) (e e2 : Z) :
  Zpos (digits2_pos m) = 24 ->
  -149 <= e + e2 + 23 <= 104 ->
  Float32.mul (S754_finite false m e) (S754_finite false 8388608 e2)
  = S754_finite false m (e + e2 + 23).
Proof.
  intros Hd He. unfold Float32.mul, SFmul. cbn [xorb].
  replace (m * 8388608)%positive with (Pos.iter xO m 23)
    by (apply Pos2Z.inj; rewrite iter_xO_value; lia).
  unfold binary_round_aux, shr_fexp. cbn [Zdigits2].
  rewrite iter_xO_digits, Pos2Z.inj_add, Hd.
  rewrite fexp_normal by lia.
  replace (24 + 23 + (e + e2) - 24 - (e + e2)) with 23 by lia.
  cbn [shr shr_record_of_loc]. rewrite shr_23.
  cbn [shr_m loc_of_shr_record round_nearest_even Zdigits2 shr_record_of_loc].
  rewrite Hd, fexp_normal by lia.
  replace (24 + (e + e2 + 23) - 24 - (e + e2 + 23)) with 0 by lia.
  cbn [shr shr_m].
  replace (e + e2 + 23 <=? Float32.emax - Float32.prec) with true
    by (symmetry; apply Z.leb_le; unfold Float32.emax, Float32.prec; lia).
  reflexivity.
Qed.

End Float32Normal.

(** ** Conversions and the target *)

Lemma to_size_range (x : float32) (t : Z) :
  Float32.to_size x = Some t -> 0 <= t <= Float32.SIZE_MAX.
Proof.
  destruct x as [s|s| |s m e]; try discriminate.
  - intros [= <-]. unfold Float32.SIZE_MAX. lia.
  - unfold Float32.to_size.
    assert (0 <= Float32.truncate m e)
      by (unfold Float32.truncate; apply Z.shiftl_nonneg; lia).
    destruct s.
    + destruct (Float32.truncate m e =? 0); [|discriminate].
      intros [= <-]. unfold Float32.SIZE_MAX. lia.
    + destruct (Float32.truncate m e <=? Float32.SIZE_MAX) eqn:E;
        [|discriminate].
      apply Z.leb_le in E. intros [= <-]. lia.
Qed.

Lemma to_size_floor (x : float32) (t : Z) :
  match x with
  | S754_finite s _ _ => s = false
  | _ => True
  end ->
  Float32.to_size x = Some t -> t = Qfloor (Float32.to_Q x).
Proof.
  destruct x as [s|s| |s m e]; intros Hs; try discriminate.
  - intros [= <-]. reflexivity.
  - subst s. unfold Float32.to_size.
    destruct (Float32.truncate m e <=? Float32.SIZE_MAX); [|discriminate].
    intros [= <-]. apply Float32Facts.truncate_floor.
Qed.

Lemma target_undefined_iff
    (index_count : Z) (options : Options.MeshoptSimplifyOptions) :
  effective_target_index_count index_count options = None
  <-> Options.target_index_count options = 0
      /\ Float32.gt (Options.target_ratio options) Float32.zero = true
      /\ Float32.to_size
           (ratio_product index_count (Options.target_ratio options)) = None.
Proof.
  unfold effective_target_index_count.
  destruct (Options.target_index_count options =? 0) eqn:E0;
    [apply Z.eqb_eq in E0|apply Z.eqb_neq in E0];
    destruct (Float32.gt (Options.target_ratio options) Float32.zero);
    cbn [andb];
    try (split; [discriminate | intros (H1 & H2 & H3); congruence]).
  destruct (Float32.to_size _);
    split; try discriminate; try tauto.
  intros (_ & _ & H). discriminate.
Qed.

Lemma power_of_two_value (k : Z) :
  (Float32.to_Q (power_of_two k) == Qpower 2 k)%Q.
Proof.
  unfold power_of_two. cbn [Float32.to_Q].
  replace k with (23 + (k - 23)) at 2 by lia.
  rewrite Qpower_plus by discriminate. reflexivity.
Qed.

Lemma ratio_product_power_of_two (n k : Z) :
  0 < n < 2 ^ 24 -> -126 <= k <= 0 ->
  Float32.to_size (ratio_product n (power_of_two k)) = Some (n / 2 ^ (- k)).
Proof.
  intros Hn Hk.
  destruct (Float32Normal.of_size_exact n Hn) as (m & e & Hof & Hd & He & Hm).
  unfold ratio_product, power_of_two. rewrite Hof.
  rewrite Float32Normal.mul_power_of_two by lia.
  replace (e + (k - 23) + 23) with (- (- e + - k)) by lia.
  unfold Float32.to_size, Float32.truncate.
  rewrite Z.shiftl_opp_r, Z.shiftr_div_pow2 by lia.
  rewrite Hm, Z.pow_add_r by lia.
  assert (0 < 2 ^ (- e)) by (apply Z.pow_pos_nonneg; lia).
  assert (0 < 2 ^ (- k)) by (apply Z.pow_pos_nonneg; lia).
  rewrite (Z.mul_comm n), Z.div_mul_cancel_l by lia.
  assert (n / 2 ^ (- k) <= n) by (apply Z.div_le_upper_bound; nia).
  replace (n / 2 ^ (- k) <=? Float32.SIZE_MAX) with true;
    [reflexivity|].
  symmetry. apply Z.leb_le. unfold Float32.SIZE_MAX. lia.
Qed.

(** ** The layout of the message buffer *)

Module CStringLayout.

Lemma store_first_length (buf : list byte) (c : byte) :
  List.length (CString.store_first buf c) = List.length buf.
Proof. destruct buf; reflexivity. Qed.

Lemma store_first_skipn (buf : list byte) (c : byte) (n : nat) :
  (1 <= n)%nat -> skipn n (CString.store_first buf c) = skipn n buf.
Proof.
  intros Hn. destruct n as [|n]; [lia|]. destruct buf; reflexivity.
Qed.

(** A source shorter than [n] is copied whole and padded with NUL; what
    lies beyond the first [n] characters stays. *)
Lemma strncpy_short (dest src : list byte) (n : nat) :
  (List.length src <= n)%nat ->
  CString.strncpy dest src n
  = (src ++ repeat x00 (n - List.length src) ++ skipn n dest)%list.
Proof.
  intros H. unfold CString.strncpy.
  rewrite firstn_all2 by (rewrite length_app, repeat_length; lia).
  rewrite <- app_assoc. reflexivity.
Qed.

End CStringLayout.

(** ** The two ways a call returns *)

Section Cases.
Context {engine : meshoptimizer}.

Lemma returned_cases
    destination indices index_count vertex_positions vertex_count
    vertex_stride vertex_uvs uv_stride options result s :
  meshopt_simplify_with_uvs destination indices index_count vertex_positions
    vertex_count vertex_stride vertex_uvs uv_stride options result
  = Returned s ->
  exists r,
    result = Some r
    /\ ((exists msg, In msg rejection_messages /\ s = rejected destination r msg)
        \/ (exists dst c, destination = Some dst /\ s = simplified dst r c)).
Proof.
  intros Hrun.
  destruct result as [r|]; [|discriminate].
  exists r. split; [reflexivity|].
  destruct (engine_calls s) as [|c l] eqn:Hcalls.
  - left. unfold meshopt_simplify_with_uvs in Hrun.
    destruct destination as [dst|], indices as [idx|],
      vertex_positions as [positions|], options as [opts|];
      try (injection Hrun as <-; eexists; split; [left; reflexivity|reflexivity]).
    destruct ((index_count =? 0) || (vertex_count =? 0));
      [injection Hrun as <-; eexists; split;
       [right; left; reflexivity|reflexivity]|].
    destruct (negb (index_count mod 3 =? 0));
      [injection Hrun as <-; eexists; split;
       [right; right; left; reflexivity|reflexivity]|].
    destruct (effective_target_index_count index_count opts); [|discriminate].
    destruct (attribute_source vertex_uvs opts);
      injection Hrun as <-; discriminate.
  - right.
    destruct (reaches_engine_inv _ _ _ _ _ _ _ _ _ _ _ Hrun)
      as (dst & idx & positions & opts & r' & t & -> & _ & _ & _ & [= <-] & _
          & _ & _ & _ & ->); [rewrite Hcalls; discriminate|].
    eauto.
Qed.

End Cases.

(** ** X1: when the call is undefined *)

Section Undefined.

Context {engine : meshoptimizer}.

Variables (destination indices : option (list Z)) (index_count : Z).
Variables (vertex_positions : option (list float32)).
Variables (vertex_count vertex_stride : Z).
Variables (vertex_uvs : option (list float32)) (uv_stride : Z).
Variables (options : option Options.MeshoptSimplifyOptions).
Variables (result : option Result.MeshoptSimplifyResult).

(** X1. The call has undefined behaviour in two cases only: a null [result]
    (lines 37-40), and a call that passes all validation with
    [target_index_count = 0] and [target_ratio > 0] whose single-precision
    product does not convert to [size_t] (line 61). Every other call
    returns. *)
Theorem X1_undefined_iff :
  meshopt_simplify_with_uvs destination indices index_count vertex_positions
    vertex_count vertex_stride vertex_uvs uv_stride options result
  = Undefined
  <-> result = None
      \/ (destination <> None /\ indices <> None /\ vertex_positions <> None
          /\ index_count <> 0 /\ vertex_count <> 0 /\ index_count mod 3 = 0
          /\ exists opts,
               options = Some opts
               /\ Options.target_index_count opts = 0
               /\ Float32.gt (Options.target_ratio opts) Float32.zero = true
               /\ Float32.to_size
                    (ratio_product index_count (Options.target_ratio opts))
                  = None).
Proof.
  unfold meshopt_simplify_with_uvs.
  destruct result as [r|]; [|split; auto].
  destruct destination as [dst|], indices as [idx|],
    vertex_positions as [positions|], options as [opts|];
    try (split; [discriminate|];
         intros [H|(H1 & H2 & H3 & _ & _ & _ & (o & H4 & _))];
         congruence).
  destruct (Z.eqb_spec index_count 0) as [Hi|Hi];
    [split; [discriminate|intros [H|H]; [discriminate|tauto]]|].
  destruct (Z.eqb_spec vertex_count 0) as [Hv|Hv];
    [split; [discriminate|intros [H|H]; [discriminate|tauto]]|].
  cbn [orb].
  destruct (Z.eqb_spec (index_count mod 3) 0) as [Hm|Hm];
    [|split; [discriminate|intros [H|H]; [discriminate|tauto]]].
  cbn [negb].
  destruct (effective_target_index_count index_count opts) as [t|] eqn:Ht.
  - split.
    + destruct (attribute_source vertex_uvs opts); discriminate.
    + intros [H|(_ & _ & _ & _ & _ & _ & (o & [= <-] & Ho))]; [discriminate|].
      apply target_undefined_iff in Ho. congruence.
  - split; [intros _|reflexivity]. right.
    repeat split; try discriminate; try assumption.
    exists opts. split; [reflexivity|]. apply target_undefined_iff. exact Ht.
Qed.

End Undefined.

(** The quad at a ratio of [2^99]: valid, and undefined. *)
Lemma X1_undefined_iff_witness :
  meshopt_simplify_with_uvs (engine := Prefix.engine)
    (Some Quad.destination) (Some Quad.indices) 6 (Some Quad.positions)
    4 12 (Some Quad.uvs) 8 (Some (ratio_only Float32.huge))
    (Some Quad.stale_result)
  = Undefined.
Proof.
  apply (X1_undefined_iff (engine := Prefix.engine)). right.
  repeat split; try discriminate.
  exists (ratio_only Float32.huge). repeat split.
Defined.

(** ** X2: the result protocol *)

Section Protocol.

Context {engine : meshoptimizer}.

Variables (destination indices : option (list Z)) (index_count : Z).
Variables (vertex_positions : option (list float32)).
Variables (vertex_count vertex_stride : Z).
Variables (vertex_uvs : option (list float32)) (uv_stride : Z).
Variables (options : option Options.MeshoptSimplifyOptions).
Variables (result : option Result.MeshoptSimplifyResult).

(** X2. For every call that returns: the success flag is 0 or 1; it is 1
    exactly when the engine was invoked, and exactly when the message reads
    as the empty string; and when it is 0, the index count is 0, the error
    is 0.0, the destination is as it was and the message is one of the
    three rejection messages. *)
Theorem X2_result_protocol (s : final_state) :
  meshopt_simplify_with_uvs destination indices index_count vertex_positions
    vertex_count vertex_stride vertex_uvs uv_stride options result
  = Returned s ->
  (Result.success (result_after s) = 0 \/ Result.success (result_after s) = 1)
  /\ (Result.success (result_after s) = 1 <-> engine_calls s <> [])
  /\ (Result.success (result_after s) = 1
      <-> CString.read (Result.error_message (result_after s)) = EmptyString)
  /\ (Result.success (result_after s) = 0 ->
      Result.index_count (result_after s) = 0
      /\ Result.result_error (result_after s) = Float32.zero
      /\ destination_after s = destination
      /\ In (CString.read (Result.error_message (result_after s)))
            rejection_messages).
Proof.
  intros Hrun.
  destruct (returned_cases _ _ _ _ _ _ _ _ _ _ _ Hrun)
    as (r & _ & [(msg & Hmsg & ->)|(dst & c & _ & ->)]).
  - assert (Hread : CString.read
                      (Result.error_message
                         (result_after (rejected destination r msg))) = msg).
    { destruct Hmsg as [<-|[<-|[<-|[]]]]; reflexivity. }
    rewrite Hread. cbn [rejected result_after engine_calls destination_after
                          set_error_message initialise Result.success
                          Result.index_count Result.result_error].
    split; [left; reflexivity|]. split; [split; [discriminate|congruence]|].
    split.
    + split; [discriminate|].
      intros E. subst msg. destruct Hmsg as [H|[H|[H|[]]]]; discriminate.
    + intros _. repeat split. exact Hmsg.
  - cbn [simplified result_after engine_calls package Result.success
           Result.error_message].
    rewrite CStringFacts.read_initialised.
    split; [right; reflexivity|]. split; [split; [discriminate|reflexivity]|].
    split; [split; reflexivity|discriminate].
Qed.

End Protocol.

(** The simplified quad: success, an engine invocation, an empty message. *)
Lemma X2_result_protocol_witness :
  exists s,
    meshopt_simplify_with_uvs (engine := Prefix.engine)
      (Some Quad.destination) (Some Quad.indices) 6 (Some Quad.positions)
      4 12 (Some Quad.uvs) 8 (Some Quad.options) (Some Quad.stale_result)
    = Returned s
    /\ (Result.success (result_after s) = 1 <-> engine_calls s <> [])
    /\ (Result.success (result_after s) = 1
        <-> CString.read (Result.error_message (result_after s))
            = EmptyString).
Proof.
  eexists. split; [reflexivity|].
  destruct (X2_result_protocol (engine := Prefix.engine)
              (Some Quad.destination) (Some Quad.indices) 6
              (Some Quad.positions) 4 12 (Some Quad.uvs) 8
              (Some Quad.options) (Some Quad.stale_result) _ eq_refl)
    as (_ & H1 & H2 & _).
  split; [exact H1 | exact H2].
Defined.

(** ** X3, X4: what a call does to the message buffer *)

Section Buffers.

Context {engine : meshoptimizer}.

Variables (destination indices : option (list Z)) (index_count : Z).
Variables (vertex_positions : option (list float32)).
Variables (vertex_count vertex_stride : Z).
Variables (vertex_uvs : option (list float32)) (uv_stride : Z).
Variables (options : option Options.MeshoptSimplifyOptions).

(** X3. With a 256-character message buffer, a call that returns without
    invoking the engine leaves in it one of the three messages followed by
    NUL up to character 254, whatever the buffer held, and leaves character
    255 as the caller had it: [strncpy] is given 255, not 256. *)
Theorem X3_rejection_overwrites_message
    (r : Result.MeshoptSimplifyResult) (s : final_state) :
  List.length (Result.error_message r) = 256%nat ->
  meshopt_simplify_with_uvs destination indices index_count vertex_positions
    vertex_count vertex_stride vertex_uvs uv_stride options (Some r)
  = Returned s ->
  engine_calls s = [] ->
  exists msg,
    In msg rejection_messages
    /\ Result.error_message (result_after s)
       = (CString.literal msg
          ++ repeat x00 (255 - List.length (CString.literal msg))
          ++ skipn 255 (Result.error_message r))%list
    /\ List.length (Result.error_message (result_after s)) = 256%nat.
Proof.
  intros Hlen Hrun Hcalls.
  destruct (returned_cases _ _ _ _ _ _ _ _ _ _ _ Hrun)
    as (r' & [= <-] & [(msg & Hmsg & ->)|(dst & c & _ & ->)]);
    [|discriminate].
  exists msg. split; [exact Hmsg|].
  assert (Hshort : (List.length (CString.literal msg) <= 255)%nat)
    by (destruct Hmsg as [<-|[<-|[<-|[]]]]; vm_compute; lia).
  cbn [rejected result_after set_error_message Result.error_message initialise].
  unfold message_capacity.
  rewrite CStringLayout.strncpy_short by exact Hshort.
  rewrite CStringLayout.store_first_skipn by lia.
  split; [reflexivity|].
  rewrite !length_app, repeat_length, length_skipn. lia.
Qed.

(** X4. A call that invoked the engine has written the first character of
    the message buffer only (line 40): every later character is as the
    caller left it. *)
Theorem X4_success_keeps_message_tail
    (r : Result.MeshoptSimplifyResult) (s : final_state) :
  meshopt_simplify_with_uvs destination indices index_count vertex_positions
    vertex_count vertex_stride vertex_uvs uv_stride options (Some r)
  = Returned s ->
  engine_calls s <> [] ->
  Result.error_message (result_after s)
  = CString.store_first (Result.error_message r) x00
  /\ skipn 1 (Result.error_message (result_after s))
     = skipn 1 (Result.error_message r)
  /\ List.length (Result.error_message (result_after s))
     = List.length (Result.error_message r).
Proof.
  intros Hrun Hcalls.
  destruct (returned_cases _ _ _ _ _ _ _ _ _ _ _ Hrun)
    as (r' & [= <-] & [(msg & Hmsg & ->)|(dst & c & _ & ->)]);
    [now elim Hcalls|].
  cbn [simplified result_after package Result.error_message initialise].
  split; [reflexivity|]. split.
  - apply CStringLayout.store_first_skipn. lia.
  - apply CStringLayout.store_first_length.
Qed.

End Buffers.

(** Seven indices, into a buffer full of exclamation marks. *)
Lemma X3_rejection_overwrites_message_witness :
  exists s msg,
    meshopt_simplify_with_uvs (engine := Prefix.engine)
      (Some Quad.destination) (Some Quad.indices) 7 (Some Quad.positions)
      4 12 (Some Quad.uvs) 8 (Some Quad.options) (Some Quad.stale_result)
    = Returned s
    /\ In msg rejection_messages
    /\ Result.error_message (result_after s)
       = (CString.literal msg
          ++ repeat x00 (255 - List.length (CString.literal msg))
          ++ [x21])%list.
Proof.
  destruct (X3_rejection_overwrites_message (engine := Prefix.engine)
              (Some Quad.destination) (Some Quad.indices) 7
              (Some Quad.positions) 4 12 (Some Quad.uvs) 8
              (Some Quad.options) Quad.stale_result _ eq_refl eq_refl eq_refl)
    as (msg & Hin & E & _).
  eexists. exists msg. split; [reflexivity|]. split; [exact Hin | exact E].
Defined.

(** The simplified quad: 255 exclamation marks are still there. *)
Lemma X4_success_keeps_message_tail_witness :
  exists s,
    meshopt_simplify_with_uvs (engine := Prefix.engine)
      (Some Quad.destination) (Some Quad.indices) 6 (Some Quad.positions)
      4 12 (Some Quad.uvs) 8 (Some Quad.options) (Some Quad.stale_result)
    = Returned s
    /\ skipn 1 (Result.error_message (result_after s)) = repeat x21 255.
Proof.
  eexists. split; [reflexivity|].
  destruct (X4_success_keeps_message_tail (engine := Prefix.engine)
              (Some Quad.destination) (Some Quad.indices) 6
              (Some Quad.positions) 4 12 (Some Quad.uvs) 8
              (Some Quad.options) Quad.stale_result _ eq_refl)
    as (_ & E & _); [discriminate|].
  rewrite E. reflexivity.
Defined.

(** ** X5, X6: bounds on the effective target *)

(** X5. With a [target_index_count] that is a [size_t], an effective target
    is a [size_t] too and at least 1; when it is derived from the ratio or
    from nothing ([target_index_count = 0]) it is a multiple of 3 and at
    least 3. *)
Theorem X5_effective_target_range
    (index_count : Z) (options : Options.MeshoptSimplifyOptions) (t : Z) :
  0 <= Options.target_index_count options <= Float32.SIZE_MAX ->
  effective_target_index_count index_count options = Some t ->
  1 <= t <= Float32.SIZE_MAX
  /\ (Options.target_index_count options = 0 -> t mod 3 = 0 /\ 3 <= t).
Proof.
  intros Hr. unfold effective_target_index_count.
  assert (HM : 3 <= Float32.SIZE_MAX) by (unfold Float32.SIZE_MAX; lia).
  destruct (_ && _).
  - destruct (Float32.to_size _) as [u|] eqn:Hu; [|discriminate].
    apply to_size_range in Hu.
    assert (Hm : (u / 3 * 3) mod 3 = 0) by (apply Z.mod_mul; lia).
    assert (Hle : u / 3 * 3 <= u)
      by (rewrite Z.mul_comm; apply Z.mul_div_le; lia).
    assert (Hge : 0 <= u / 3 * 3)
      by (apply Z.mul_nonneg_nonneg; [apply Z.div_pos|]; lia).
    destruct (u / 3 * 3 =? 0) eqn:E; intros [= <-].
    + split; [lia|]. intros _. split; [reflexivity|lia].
    + apply Z.eqb_neq in E. split; [lia|]. intros _.
      split; [exact Hm|].
      destruct (Z.eq_dec (u / 3) 0) as [Hz|Hz]; [rewrite Hz in E; lia|].
      assert (0 <= u / 3) by (apply Z.div_pos; lia). lia.
  - destruct (Options.target_index_count options =? 0) eqn:E; intros [= <-].
    + split; [lia|]. intros _. split; [reflexivity|lia].
    + apply Z.eqb_neq in E. split; [lia|]. intros H0. contradiction.
Qed.

Lemma X5_effective_target_range_witness :
  1 <= 18 <= Float32.SIZE_MAX
  /\ (Options.target_index_count (ratio_only Float32.half) = 0 ->
      18 mod 3 = 0 /\ 3 <= 18).
Proof.
  apply (X5_effective_target_range 36 (ratio_only Float32.half) 18).
  - vm_compute. split; discriminate.
  - reflexivity.
Defined.

(** X6. The ratio is rounded down, never up: for a count that is a
    [size_t], [target_index_count = 0], [target_ratio > 0] and a product
    [P] that is finite and below [2^64], the effective target is more than
    [floor(P) - 3] and at most [floor(P)], or 3 when [floor(P)] is below
    3. *)
Theorem X6_ratio_target_bracket
    (index_count : Z) (options : Options.MeshoptSimplifyOptions) :
  0 <= index_count ->
  Options.target_index_count options = 0 ->
  Float32.gt (Options.target_ratio options) Float32.zero = true ->
  Float32.is_finite
    (ratio_product index_count (Options.target_ratio options)) = true ->
  (Float32.to_Q (ratio_product index_count (Options.target_ratio options))
   < inject_Z (2 ^ 64))%Q ->
  exists target,
    effective_target_index_count index_count options = Some target
    /\ Qfloor (Float32.to_Q
                 (ratio_product index_count (Options.target_ratio options)))
       - 3 < target
    /\ target
       <= Z.max 3
            (Qfloor (Float32.to_Q
                       (ratio_product index_count
                          (Options.target_ratio options)))).
Proof.
  intros Hn H0 Hr Hfin Hlt.
  destruct (proj2 (product_converts index_count options Hn Hr) (conj Hfin Hlt))
    as (t & Ht).
  assert (Hs : match ratio_product index_count (Options.target_ratio options)
               with S754_finite s _ _ => s = false | _ => True end).
  { pose proof (Float32Facts.product_sign index_count _ Hn Hr) as Hs.
    unfold ratio_product. destruct (Float32.mul _ _); auto. }
  rewrite <- (to_size_floor _ t Hs Ht).
  pose proof (to_size_range _ t Ht) as Hrange.
  unfold effective_target_index_count. rewrite H0, Hr, Ht. cbn [andb Z.eqb].
  eexists. split; [reflexivity|].
  pose proof (Z.mul_div_le t 3 ltac:(lia)) as Hle.
  pose proof (Z.mul_succ_div_gt t 3 ltac:(lia)) as Hgt.
  destruct (t / 3 * 3 =? 0) eqn:E.
  - apply Z.eqb_eq in E. lia.
  - lia.
Qed.

Lemma X6_ratio_target_bracket_witness :
  exists target,
    effective_target_index_count 36 (ratio_only Float32.half) = Some target
    /\ 18 - 3 < target /\ target <= Z.max 3 18.
Proof.
  destruct (X6_ratio_target_bracket 36 (ratio_only Float32.half))
    as (target & E & Hlo & Hhi);
    [lia | reflexivity | reflexivity | reflexivity | vm_compute; reflexivity |].
  exists target. split; [exact E|]. split; [exact Hlo | exact Hhi].
Defined.

(** ** X7, X8: what reaches the engine *)

Section Engine.

Context {engine : meshoptimizer}.

Variables (destination indices : option (list Z)) (index_count : Z).
Variables (vertex_positions : option (list float32)).
Variables (vertex_count vertex_stride : Z).
Variables (vertex_uvs : option (list float32)) (uv_stride : Z).
Variables (options : option Options.MeshoptSimplifyOptions).

(** X7. Every engine invocation carries the caller's index buffer, vertex
    positions, index count, vertex count, vertex stride and target error
    exactly as given; the index count is a nonzero multiple of 3 and the
    vertex count is nonzero; and an attribute-aware invocation has as many
    weights as its attribute count says, each of them above zero. *)
Theorem X7_engine_preconditions
    (result : option Result.MeshoptSimplifyResult)
    (s : final_state) (c : engine_call) :
  meshopt_simplify_with_uvs destination indices index_count vertex_positions
    vertex_count vertex_stride vertex_uvs uv_stride options result
  = Returned s ->
  In c (engine_calls s) ->
  indices = Some (arg_indices (call_arguments c))
  /\ vertex_positions = Some (arg_vertex_positions (call_arguments c))
  /\ arg_index_count (call_arguments c) = index_count
  /\ arg_vertex_count (call_arguments c) = vertex_count
  /\ arg_vertex_positions_stride (call_arguments c) = vertex_stride
  /\ (exists opts,
        options = Some opts
        /\ arg_target_error (call_arguments c) = Options.target_error opts)
  /\ index_count <> 0 /\ index_count mod 3 = 0 /\ vertex_count <> 0
  /\ match c with
     | Call_simplify _ => True
     | Call_simplifyWithAttributes _ b =>
         Z.of_nat (List.length (arg_attribute_weights b))
         = arg_attribute_count b
         /\ Forall (fun w => Float32.gt w Float32.zero = true)
                   (arg_attribute_weights b)
     end.
Proof.
  intros Hrun Hin.
  assert (Hcalls : engine_calls s <> [])
    by (intros E; rewrite E in Hin; exact Hin).
  destruct (reaches_engine_inv _ _ _ _ _ _ _ _ _ _ _ Hrun Hcalls)
    as (dst & idx & positions & opts & r & t & _ & -> & -> & -> & _ & Hi & Hv
        & Hm & _ & ->).
  destruct Hin as [<-|[]].
  rewrite selected_call_arguments.
  cbn [engine_arguments arg_indices arg_vertex_positions arg_index_count
         arg_vertex_count arg_vertex_positions_stride arg_target_error].
  repeat (split; [reflexivity || assumption || eauto|]).
  unfold selected_call, attribute_source.
  destruct vertex_uvs as [uvs|]; [|exact I].
  destruct (Float32.gt (Options.uv_weight opts) Float32.zero) eqn:Hw;
    [|exact I].
  split; [reflexivity|]. cbn [uv_arguments arg_attribute_weights].
  repeat constructor; exact Hw.
Qed.

(** X8. UV data whose weight is not above zero (zero, negative or NaN) is
    inert: the call does exactly what it does with a null [vertex_uvs],
    whatever the strides. *)
Theorem X8_uvs_without_weight_inert
    (opts : Options.MeshoptSimplifyOptions)
    (result : option Result.MeshoptSimplifyResult)
    (uvs : list float32) (other_stride : Z) :
  Float32.gt (Options.uv_weight opts) Float32.zero = false ->
  meshopt_simplify_with_uvs destination indices index_count vertex_positions
    vertex_count vertex_stride (Some uvs) uv_stride (Some opts) result
  = meshopt_simplify_with_uvs destination indices index_count vertex_positions
      vertex_count vertex_stride None other_stride (Some opts) result.
Proof.
  intros Hw. unfold meshopt_simplify_with_uvs, attribute_source.
  rewrite Hw. reflexivity.
Qed.

End Engine.

Lemma X7_engine_preconditions_witness :
  exists s c,
    meshopt_simplify_with_uvs (engine := Prefix.engine)
      (Some Quad.destination) (Some Quad.indices) 6 (Some Quad.positions)
      4 12 (Some Quad.uvs) 8 (Some Quad.options) (Some Quad.stale_result)
    = Returned s
    /\ In c (engine_calls s)
    /\ arg_index_count (call_arguments c) = 6
    /\ arg_vertex_count (call_arguments c) = 4.
Proof.
  eexists. eexists. split; [reflexivity|]. split; [left; reflexivity|].
  destruct (X7_engine_preconditions (engine := Prefix.engine)
              (Some Quad.destination) (Some Quad.indices) 6
              (Some Quad.positions) 4 12 (Some Quad.uvs) 8
              (Some Quad.options) (Some Quad.stale_result) _ _ eq_refl
              (or_introl eq_refl))
    as (_ & _ & Hi & Hv & _).
  split; [exact Hi | exact Hv].
Defined.

(** The quad with UVs of weight [-1.0f], and without UVs. *)
Lemma X8_uvs_without_weight_inert_witness :
  meshopt_simplify_with_uvs (engine := Prefix.engine)
    (Some Quad.destination) (Some Quad.indices) 6 (Some Quad.positions)
    4 12 (Some Quad.uvs) 8
    (Some (Options.Build 0 Float32.half Float32.zero Float32.minus_one 0 0))
    (Some Quad.stale_result)
  = meshopt_simplify_with_uvs (engine := Prefix.engine)
      (Some Quad.destination) (Some Quad.indices) 6 (Some Quad.positions)
      4 12 None 0
      (Some (Options.Build 0 Float32.half Float32.zero Float32.minus_one 0 0))
      (Some Quad.stale_result).
Proof.
  apply (X8_uvs_without_weight_inert (engine := Prefix.engine)). reflexivity.
Defined.

(** ** X9: ratios that are powers of two *)

(** X9. For fewer than [2^24] indices, [target_index_count = 0] and a ratio
    that is a power of two [2^k] with [-126 <= k <= 0] (1.0f, 0.5f, 0.25f,
    ...), no rounding occurs: the effective target is
    [floor(index_count * 2^k / 3) * 3], or 3 when that is 0, which is the
    specified value; in particular a ratio of [1.0f] on a count that is a
    multiple of 3 gives the count itself. *)
Theorem X9_power_of_two_ratio_exact
    (index_count k : Z) (options : Options.MeshoptSimplifyOptions) :
  0 < index_count < 2 ^ 24 -> -126 <= k <= 0 ->
  Options.target_index_count options = 0 ->
  Options.target_ratio options = power_of_two k ->
  effective_target_index_count index_count options
  = Some (at_least_one_triangle (index_count / 2 ^ (- k) / 3 * 3))
  /\ effective_target_index_count index_count options
     = Some (specified_target index_count options)
  /\ (k = 0 -> index_count mod 3 = 0 ->
      effective_target_index_count index_count options = Some index_count).
Proof.
  intros Hn Hk H0 Hr.
  assert (E : effective_target_index_count index_count options
              = Some (at_least_one_triangle (index_count / 2 ^ (- k) / 3 * 3))).
  { unfold effective_target_index_count. rewrite H0, Hr.
    rewrite ratio_product_power_of_two by assumption. reflexivity. }
  split; [exact E|]. split.
  - rewrite E. f_equal.
    unfold specified_target, exact_ratio_target. rewrite H0, Hr.
    cbn [Z.eqb]. change (Float32.gt (power_of_two k) Float32.zero) with true.
    cbv iota. f_equal. f_equal.
    destruct index_count as [|p|p]; try lia.
    replace (Zpos p / 2 ^ (- k)) with (Float32.truncate p k)
      by (unfold Float32.truncate; replace k with (- - k) at 1 by lia;
          rewrite Z.shiftl_opp_r, Z.shiftr_div_pow2 by lia; reflexivity).
    rewrite <- (Float32Facts.floor_scaled p k 3) by lia.
    apply Qfloor_comp. rewrite power_of_two_value. reflexivity.
  - intros -> Hm. rewrite E. f_equal.
    change (2 ^ (- 0)) with 1. rewrite Z.div_1_r.
    apply Z.div_exact in Hm; [|lia].
    unfold at_least_one_triangle.
    replace (index_count / 3 * 3) with index_count by lia.
    destruct (Z.eqb_spec index_count 0); [lia|reflexivity].
Qed.

(** The cube of the specification again, and the full cube at [1.0f]. *)
Lemma X9_power_of_two_ratio_exact_witness :
  effective_target_index_count 36 (ratio_only Float32.half) = Some 18
  /\ effective_target_index_count 36 (ratio_only Float32.one) = Some 36.
Proof.
  split.
  - destruct (X9_power_of_two_ratio_exact 36 (-1) (ratio_only Float32.half))
      as (E & _); [lia | lia | reflexivity | reflexivity |].
    exact E.
  - destruct (X9_power_of_two_ratio_exact 36 0 (ratio_only Float32.one))
      as (_ & _ & E); [lia | lia | reflexivity | reflexivity |].
    apply E; reflexivity.
Defined.

(** ** X10: the conversion of the count *)

(** X10. In [index_count * target_ratio] the count is converted to [float]
    first: a count below [2^24] converts to a normal float of exactly its
    value, so that whatever rounding there is comes from the product. *)
Theorem X10_count_conversion_exact (index_count : Z) :
  0 < index_count < 2 ^ 24 ->
  valid_binary Float32.prec Float32.emax (Float32.of_size index_count) = true
  /\ Float32.is_finite (Float32.of_size index_count) = true
  /\ (Float32.to_Q (Float32.of_size index_count) == inject_Z index_count)%Q.
Proof.
  intros Hn.
  destruct (Float32Normal.of_size_exact index_count Hn)
    as (m & e & -> & Hd & He & Hm).
  split; [|split; [reflexivity|]].
  - cbn [valid_binary]. apply Float32Normal.bounded_normal; [exact Hd|lia].
  - cbn [Float32.to_Q]. rewrite Hm, inject_Z_mult.
    rewrite <- (Float32Facts.Qpower_two (- e)) by lia.
    rewrite <- Qmult_assoc, <- Qpower_plus by discriminate.
    replace (- e + e) with 0 by lia. cbn [Qpower]. ring.
Qed.

(** Thirty-six converts to 36.0f = 9437184 * 2^-18. *)
Lemma X10_count_conversion_exact_witness :
  0 < 36 < 2 ^ 24
  /\ (Float32.to_Q (Float32.of_size 36) == inject_Z 36)%Q.
Proof.
  split; [lia|].
  destruct (X10_count_conversion_exact 36) as (_ & _ & E); [lia|].
  exact E.
Defined.

(** ** X11: ratios within (0, 1] *)

Module Float32Round.

Lemma Zdigits2_log2 (z : Z) : 0 < z -> Zdigits2 z = Z.log2 z + 1.
Proof.
  intros Hz. destruct z as [|p|p]; try lia. cbn [Zdigits2].
  pose proof (Float32Normal.digits2_pos_bounds p) as Hb.
  symmetry. apply Z.add_move_r. apply Z.log2_unique; [lia|].
  replace (Z.succ (Zpos (digits2_pos p) - 1)) with (Zpos (digits2_pos p)) by lia.
  exact Hb.
Qed.

Lemma Zdigits2_nonneg (z : Z) : 0 <= Zdigits2 z.
Proof. destruct z; cbn; lia. Qed.

Lemma Zdigits2_mono (a b : Z) : 0 <= a <= b -> Zdigits2 a <= Zdigits2 b.
Proof.
  intros [Ha Hab]. destruct (Z.eq_dec a 0) as [->|Hn].
  - apply Zdigits2_nonneg.
  - rewrite !Zdigits2_log2 by lia. apply Z.add_le_mono_r, Z.log2_le_mono. lia.
Qed.

Lemma Zdigits2_succ (a : Z) : 0 <= a -> Zdigits2 (a + 1) <= Zdigits2 a + 1.
Proof.
  intros Ha. destruct (Z.eq_dec a 0) as [->|Hn]; [cbn; lia|].
  rewrite !Zdigits2_log2 by lia.
  pose proof (Z.log2_succ_le a) as H. unfold Z.succ in H. lia.
Qed.

Lemma Zdigits2_mul (a b : Z) :
  0 < a -> 0 < b -> Zdigits2 (a * b) <= Zdigits2 a + Zdigits2 b.
Proof.
  intros Ha Hb. rewrite !Zdigits2_log2 by nia.
  pose proof (Z.log2_mul_above a b). lia.
Qed.

Lemma Zdigits2_shiftr (a k : Z) :
  0 <= a -> 0 <= k -> Zdigits2 (a / 2 ^ k) + k <= Z.max (Zdigits2 a) k.
Proof.
  intros Ha Hk. rewrite <- Z.shiftr_div_pow2 by exact Hk.
  destruct (Z.eq_dec a 0) as [->|Hn].
  - rewrite Z.shiftr_0_l. cbn. lia.
  - destruct (Z.eq_dec (Z.shiftr a k) 0) as [E|E].
    + rewrite E. cbn. lia.
    + assert (0 <= Z.shiftr a k) by (apply Z.shiftr_nonneg; lia).
      assert (k <= Z.log2 a).
      { destruct (Z_le_gt_dec k (Z.log2 a)) as [Hle|Hgt]; [exact Hle|].
        elim E. apply Z.shiftr_eq_0; lia. }
      rewrite !Zdigits2_log2 by lia.
      rewrite Z.log2_shiftr by lia. lia.
Qed.

Lemma Zdigits2_bound (a : Z) : 0 <= a -> a < 2 ^ Zdigits2 a.
Proof.
  intros Ha. destruct a as [|p|p]; try lia; [cbn; lia|].
  apply Float32Normal.digits2_pos_bounds.
Qed.

Lemma shr_1_m (r : shr_record) :
  0 <= shr_m r -> shr_m (shr_1 r) = shr_m r / 2.
Proof.
  destruct r as [m rb sb]. cbn [shr_m]. intros Hm.
  rewrite <- Z.div2_div.
  destruct m as [|[p|p|]|p]; try reflexivity. lia.
Qed.

Lemma iter_shr_m (k : positive) :
  forall r, 0 <= shr_m r ->
    shr_m (iter_pos shr_1 k r) = shr_m r / 2 ^ Zpos k.
Proof.
  assert (Hdiv : forall a b, 0 <= a -> 0 < b -> 0 <= a / b)
    by (intros; apply Z.div_pos; lia).
  induction k as [k IH|k IH|]; intros r Hr; cbn [iter_pos].
  - assert (H1 : 0 <= shr_m (shr_1 r))
      by (rewrite shr_1_m by exact Hr; apply Hdiv; lia).
    assert (H2 : 0 <= shr_m (iter_pos shr_1 k (shr_1 r)))
      by (rewrite IH by exact H1; apply Hdiv; [exact H1|];
          apply Z.pow_pos_nonneg; lia).
    rewrite IH by exact H2. rewrite IH by exact H1. rewrite shr_1_m by exact Hr.
    rewrite !Z.div_div by (try apply Z.pow_pos_nonneg; lia).
    f_equal.
    replace (Zpos k~1) with (1 + Zpos k + Zpos k) by lia.
    rewrite !Z.pow_add_r by lia. lia.
  - assert (H2 : 0 <= shr_m (iter_pos shr_1 k r))
      by (rewrite IH by exact Hr; apply Hdiv; [exact Hr|];
          apply Z.pow_pos_nonneg; lia).
    rewrite IH by exact H2. rewrite IH by exact Hr.
    rewrite !Z.div_div by (try apply Z.pow_pos_nonneg; lia).
    f_equal.
    replace (Zpos k~0) with (Zpos k + Zpos k) by lia.
    rewrite !Z.pow_add_r by lia. lia.
  - rewrite shr_1_m by exact Hr. reflexivity.
Qed.

Lemma fexp_le (x B : Z) :
  x <= B -> -149 <= B -> fexp Float32.prec Float32.emax x <= B.
Proof. unfold fexp, emin, Float32.prec, Float32.emax. lia. Qed.

Lemma shr_fexp_bound (m e : Z) (l : location) (B : Z) :
  0 <= m -> Zdigits2 m + e <= B -> -149 <= B ->
  0 <= shr_m (fst (shr_fexp Float32.prec Float32.emax m e l))
  /\ Zdigits2 (shr_m (fst (shr_fexp Float32.prec Float32.emax m e l)))
     + snd (shr_fexp Float32.prec Float32.emax m e l) <= B.
Proof.
  intros Hm HB Hlow. unfold shr_fexp, shr.
  assert (Hrec : shr_m (shr_record_of_loc m l) = m)
    by (destruct l as [|[| |]]; reflexivity).
  pose proof (fexp_le (Zdigits2 m + e) B HB Hlow) as Hf.
  destruct (fexp Float32.prec Float32.emax (Zdigits2 m + e) - e)
    as [|k|k] eqn:Hk; cbn [fst snd]; rewrite ?Hrec; try (split; lia).
  rewrite iter_shr_m by (rewrite Hrec; exact Hm). rewrite Hrec.
  split; [apply Z.div_pos; [exact Hm|apply Z.pow_pos_nonneg; lia]|].
  pose proof (Zdigits2_shiftr m (Zpos k) Hm ltac:(lia)). lia.
Qed.

Lemma round_nearest_even_bound (m : Z) (l : location) :
  0 <= m -> m <= round_nearest_even m l <= m + 1.
Proof.
  intros Hm. destruct l as [|[| |]]; cbn [round_nearest_even]; try lia.
  destruct (Z.even m); lia.
Qed.

(** Rounding neither overflows nor gains more than one binary digit. *)
Lemma round_bound (s : bool) (M E B : Z) :
  0 <= M -> Zdigits2 M + E <= B -> -149 <= B <= 104 ->
  match binary_round_aux Float32.prec Float32.emax s M E loc_Exact with
  | S754_zero _ => True
  | S754_finite _ m e => Zpos (digits2_pos m) + e <= B + 1
  | _ => False
  end.
Proof.
  intros HM HB [Hlow Hhigh]. unfold binary_round_aux.
  pose proof (shr_fexp_bound M E loc_Exact B HM HB Hlow) as H1.
  destruct (shr_fexp Float32.prec Float32.emax M E loc_Exact) as [mrs' e'].
  cbn [fst snd] in H1. destruct H1 as [Hm1 Hb1].
  pose proof (round_nearest_even_bound (shr_m mrs') (loc_of_shr_record mrs') Hm1)
    as Hr.
  set (m2 := round_nearest_even (shr_m mrs') (loc_of_shr_record mrs')) in *.
  assert (Hb2 : Zdigits2 m2 + e' <= B + 1).
  { pose proof (Zdigits2_mono m2 (shr_m mrs' + 1) ltac:(lia)).
    pose proof (Zdigits2_succ (shr_m mrs') Hm1). lia. }
  pose proof (shr_fexp_bound m2 e' loc_Exact (B + 1) ltac:(lia) Hb2 ltac:(lia))
    as H3.
  destruct (shr_fexp Float32.prec Float32.emax m2 e' loc_Exact) as [mrs'' e''].
  cbn [fst snd] in H3. destruct H3 as [Hm3 Hb3].
  destruct (shr_m mrs'') as [|m|m]; [exact I| |lia].
  cbn [Zdigits2] in Hb3.
  replace (e'' <=? Float32.emax - Float32.prec) with true; [exact Hb3|].
  symmetry. apply Z.leb_le. unfold Float32.emax, Float32.prec. lia.
Qed.

Lemma shl_align_digits (mx : positive) (ex ex' : Z) :
  Zpos (digits2_pos (fst (shl_align mx ex ex'))) + snd (shl_align mx ex ex')
  = Zpos (digits2_pos mx) + ex.
Proof.
  unfold shl_align. destruct (ex' - ex) as [|d|d] eqn:Hd; cbn [fst snd];
    try reflexivity.
  rewrite Float32Normal.iter_xO_digits, Pos2Z.inj_add. lia.
Qed.

Lemma of_size_below (n : Z) :
  0 <= n < 2 ^ 61 -> below_pow2 62 (Float32.of_size n).
Proof.
  intros [Hlo Hhi]. destruct n as [|p|p]; [exact I| |lia].
  pose proof (Float32Facts.of_size_sign (Zpos p) ltac:(lia)) as Hs.
  unfold Float32.of_size, binary_normalize, binary_round in *.
  pose proof (shl_align_digits p 0
                (fexp Float32.prec Float32.emax (Zpos (digits2_pos p) + 0)))
    as Hd.
  destruct (shl_align p 0 _) as [mz ez]. cbn [fst snd] in Hd.
  assert (Hdig : Zpos (digits2_pos p) <= 61).
  { change (Zpos (digits2_pos p)) with (Zdigits2 (Zpos p)).
    rewrite Zdigits2_log2 by lia.
    assert (Z.log2 (Zpos p) < 61) by (apply Z.log2_lt_pow2; lia). lia. }
  pose proof (round_bound false (Zpos mz) ez 61 ltac:(lia)
                ltac:(cbn [Zdigits2]; lia) ltac:(lia)) as Hr.
  destruct (binary_round_aux _ _ false (Zpos mz) ez loc_Exact);
    cbn [below_pow2]; auto.
Qed.

(** A valid float in (0, 1]. *)
Lemma unit_ratio_below (r : float32) :
  valid_binary Float32.prec Float32.emax r = true ->
  Float32.gt r Float32.zero = true ->
  Float32.gt r Float32.one = false ->
  exists m e, r = S754_finite false m e /\ Zpos (digits2_pos m) + e <= 1.
Proof.
  intros Hv H0 H1.
  destruct (Float32Facts.gt_zero_inv r H0) as [->|(m & e & ->)];
    [discriminate|].
  exists m, e. split; [reflexivity|].
  cbn [valid_binary] in Hv. unfold bounded, canonical_mantissa in Hv.
  apply andb_true_iff in Hv. destruct Hv as [Hc _]. apply Z.eqb_eq in Hc.
  unfold fexp, emin, Float32.prec, Float32.emax in Hc.
  assert (He : e <= -23).
  { destruct (Z_le_gt_dec e (-23)) as [Hle|Hgt]; [exact Hle|exfalso].
    unfold Float32.gt, SFltb, Float32.one, SFcompare in H1.
    replace (-23 ?= e) with Lt in H1
      by (symmetry; apply Z.compare_lt_iff; lia).
    discriminate. }
  lia.
Qed.

Lemma to_size_below (x : float32) :
  below_pow2 64 x -> exists t, Float32.to_size x = Some t.
Proof.
  destruct x as [s|s| |s m e]; cbn [below_pow2]; try contradiction.
  - intros _. exists 0. reflexivity.
  - intros [-> Hd]. unfold Float32.to_size.
    replace (Float32.truncate m e <=? Float32.SIZE_MAX) with true; [eauto|].
    symmetry. apply Z.leb_le. unfold Float32.SIZE_MAX, Float32.truncate.
    pose proof (Float32Normal.digits2_pos_bounds m) as [_ Hm].
    set (d := Zpos (digits2_pos m)) in *.
    assert (Hd1 : 1 <= d) by (unfold d; lia).
    enough (Z.shiftl (Zpos m) e < 2 ^ 64) by lia.
    destruct (Z_le_gt_dec 0 e) as [He|He].
    + rewrite Z.shiftl_mul_pow2 by exact He.
      assert (2 ^ d * 2 ^ e <= 2 ^ 64)
        by (rewrite <- Z.pow_add_r by lia; apply Z.pow_le_mono_r; lia).
      assert (0 < 2 ^ e) by (apply Z.pow_pos_nonneg; lia). nia.
    + replace e with (- - e) by lia.
      rewrite Z.shiftl_opp_r, Z.shiftr_div_pow2 by lia.
      assert (0 < 2 ^ (- e)) by (apply Z.pow_pos_nonneg; lia).
      destruct (Z_le_gt_dec 0 (d + e)) as [Hde|Hde].
      * assert (Zpos m / 2 ^ (- e) < 2 ^ (d + e)).
        { apply Z.div_lt_upper_bound; [lia|].
          rewrite <- Z.pow_add_r by lia.
          replace (- e + (d + e)) with d by lia. exact Hm. }
        assert (2 ^ (d + e) <= 2 ^ 64) by (apply Z.pow_le_mono_r; lia).
        lia.
      * assert (2 ^ d <= 2 ^ (- e)) by (apply Z.pow_le_mono_r; lia).
        rewrite Z.div_small by lia. lia.
Qed.

Lemma product_below (n : Z) (r : float32) :
  0 <= n < 2 ^ 61 ->
  valid_binary Float32.prec Float32.emax r = true ->
  Float32.gt r Float32.zero = true ->
  Float32.gt r Float32.one = false ->
  below_pow2 64 (ratio_product n r).
Proof.
  intros Hn Hv H0 H1.
  destruct (unit_ratio_below r Hv H0 H1) as (mr & er & -> & Hr).
  pose proof (of_size_below n Hn) as Hof.
  unfold ratio_product, Float32.mul.
  destruct (Float32.of_size n) as [s|s| |s mf ef]; cbn [below_pow2] in Hof;
    try contradiction.
  - exact I.
  - destruct Hof as [-> Hf]. cbn [SFmul xorb].
    pose proof (Float32Facts.binary_round_aux_sign false (Zpos (mf * mr))
                  (ef + er) loc_Exact) as Hs.
    pose proof (Zdigits2_mul (Zpos mf) (Zpos mr) ltac:(lia) ltac:(lia)) as Hmul.
    cbn [Zdigits2] in Hmul. change (Zpos mf * Zpos mr) with (Zpos (mf * mr)) in Hmul.
    cbn [Zdigits2] in Hmul.
    pose proof (round_bound false (Zpos (mf * mr)) (ef + er) 63 ltac:(lia)
                  ltac:(cbn [Zdigits2]; lia) ltac:(lia)) as Hb.
    destruct (binary_round_aux _ _ false (Zpos (mf * mr)) (ef + er) loc_Exact);
      cbn [below_pow2]; auto.
Qed.

End Float32Round.

Lemma target_defined_unit_ratio
    (index_count : Z) (options : Options.MeshoptSimplifyOptions) :
  0 <= index_count < 2 ^ 61 ->
  valid_binary Float32.prec Float32.emax (Options.target_ratio options) = true ->
  Float32.gt (Options.target_ratio options) Float32.one = false ->
  exists t, effective_target_index_count index_count options = Some t.
Proof.
  intros Hn Hv H1.
  destruct (effective_target_index_count index_count options) as [t|] eqn:E;
    [eauto|exfalso].
  apply target_undefined_iff in E. destruct E as (_ & H0 & Hnone).
  destruct (Float32Round.to_size_below _ (Float32Round.product_below index_count _ Hn Hv H0 H1))
    as (t & Ht).
  congruence.
Qed.

(** X11. With fewer than [2^61] indices and a [target_ratio] that is a float
    not above [1.0f] (the documented range, and also zero, negative values
    and NaN), a call with a non-null [result] always returns: the conversion
    of line 61 cannot go out of range, so undefined behaviour is confined to
    ratios above 1. *)
Theorem X11_documented_ratio_defined
    (engine : meshoptimizer)
    (destination indices : option (list Z)) (index_count : Z)
    (vertex_positions : option (list float32)) (vertex_count vertex_stride : Z)
    (vertex_uvs : option (list float32)) (uv_stride : Z)
    (options : option Options.MeshoptSimplifyOptions)
    (r : Result.MeshoptSimplifyResult) :
  0 <= index_count < 2 ^ 61 ->
  (forall opts,
     options = Some opts ->
     valid_binary Float32.prec Float32.emax (Options.target_ratio opts) = true
     /\ Float32.gt (Options.target_ratio opts) Float32.one = false) ->
  exists s,
    meshopt_simplify_with_uvs destination indices index_count vertex_positions
      vertex_count vertex_stride vertex_uvs uv_stride options (Some r)
    = Returned s.
Proof.
  intros Hn Hopts. unfold meshopt_simplify_with_uvs.
  destruct destination as [dst|], indices as [idx|],
    vertex_positions as [positions|], options as [opts|]; eauto.
  destruct ((index_count =? 0) || (vertex_count =? 0)); eauto.
  destruct (negb (index_count mod 3 =? 0)); eauto.
  destruct (Hopts opts eq_refl) as [Hv H1].
  destruct (target_defined_unit_ratio index_count opts Hn Hv H1) as (t & ->).
  destruct (attribute_source vertex_uvs opts); eauto.
Qed.

(** The quad at [0.5f]. *)
Lemma X11_documented_ratio_defined_witness :
  exists s,
    meshopt_simplify_with_uvs (engine := Prefix.engine)
      (Some Quad.destination) (Some Quad.indices) 6 (Some Quad.positions)
      4 12 (Some Quad.uvs) 8 (Some Quad.options) (Some Quad.stale_result)
    = Returned s.
Proof.
  apply (X11_documented_ratio_defined Prefix.engine).
  - lia.
  - intros opts [= <-]. split; reflexivity.
Defined.

(** ** X12: a ratio within (0, 1] on fewer than 2^24 indices *)

Module Float32Upper.

(** A mantissa that needs no shift is left as it is. *)
Lemma round_no_shift (s : bool) (m : positive) (e : Z) :
  fexp Float32.prec Float32.emax (Zpos (digits2_pos m) + e) <= e ->
  e <= 104 ->
  binary_round_aux Float32.prec Float32.emax s (Zpos m) e loc_Exact
  = S754_finite s m e.
Proof.
  intros Hf He. unfold binary_round_aux, shr_fexp. cbn [Zdigits2].
  assert (Hshr : forall r,
            shr r e (fexp Float32.prec Float32.emax (Zpos (digits2_pos m) + e) - e)
            = (r, e)).
  { intros r. unfold shr.
    destruct (fexp Float32.prec Float32.emax (Zpos (digits2_pos m) + e) - e)
      eqn:E; try reflexivity. lia. }
  rewrite Hshr.
  cbn [shr_record_of_loc shr_m loc_of_shr_record round_nearest_even Zdigits2].
  rewrite Hshr. cbn [shr_m].
  replace (e <=? Float32.emax - Float32.prec) with true; [reflexivity|].
  symmetry. apply Z.leb_le. unfold Float32.emax, Float32.prec. lia.
Qed.

(** When a shift is needed and the exact value lies below a point [N] of
    the grid it is rounded to, the rounded value does not pass [N]. *)
Lemma round_upper (s : bool) (M : positive) (E N : Z) :
  E < fexp Float32.prec Float32.emax (Zpos (digits2_pos M) + E) ->
  Zpos M
  < N * 2 ^ (fexp Float32.prec Float32.emax (Zpos (digits2_pos M) + E) - E) ->
  match binary_round_aux Float32.prec Float32.emax s (Zpos M) E loc_Exact with
  | S754_finite _ m e =>
      fexp Float32.prec Float32.emax (Zpos (digits2_pos M) + E) <= e
      /\ Zpos m
         * 2 ^ (e - fexp Float32.prec Float32.emax (Zpos (digits2_pos M) + E))
         <= N
  | _ => True
  end.
Proof.
  set (e' := fexp Float32.prec Float32.emax (Zpos (digits2_pos M) + E)).
  intros Hshift HN. unfold binary_round_aux.
  assert (H1 : shr_fexp Float32.prec Float32.emax (Zpos M) E loc_Exact
               = (iter_pos shr_1 (Z.to_pos (e' - E))
                    {| shr_m := Zpos M; shr_r := false; shr_s := false |}, e')).
  { unfold shr_fexp, shr. cbn [Zdigits2 shr_record_of_loc]. fold e'.
    destruct (e' - E) as [|k|k] eqn:Hk; try lia.
    cbn [Z.to_pos]. f_equal. lia. }
  rewrite H1.
  set (mrs' := iter_pos shr_1 (Z.to_pos (e' - E))
                 {| shr_m := Zpos M; shr_r := false; shr_s := false |}).
  assert (Hm1 : shr_m mrs' = Zpos M / 2 ^ (e' - E)).
  { unfold mrs'. rewrite Float32Round.iter_shr_m by (cbn; lia).
    cbn [shr_m]. rewrite Z2Pos.id by lia. reflexivity. }
  assert (Hpow : 0 < 2 ^ (e' - E)) by (apply Z.pow_pos_nonneg; lia).
  assert (Hm1lo : 0 <= shr_m mrs')
    by (rewrite Hm1; apply Z.div_pos; lia).
  assert (Hm1hi : shr_m mrs' < N)
    by (rewrite Hm1; apply Z.div_lt_upper_bound; [lia|]; lia).
  pose proof (Float32Round.round_nearest_even_bound (shr_m mrs')
                (loc_of_shr_record mrs') Hm1lo) as Hr.
  set (m2 := round_nearest_even (shr_m mrs') (loc_of_shr_record mrs')) in *.
  unfold shr_fexp, shr.
  assert (Hrec : shr_record_of_loc m2 loc_Exact
                 = {| shr_m := m2; shr_r := false; shr_s := false |})
    by reflexivity.
  rewrite Hrec.
  destruct (fexp Float32.prec Float32.emax (Zdigits2 m2 + e') - e')
    as [|k|k] eqn:Hk; cbn [shr_m].
  - destruct m2 as [|m|m]; [exact I| |exact I].
    destruct (e' <=? _); [|exact I].
    split; [lia|]. rewrite Z.sub_diag. cbn. lia.
  - rewrite Float32Round.iter_shr_m by (cbn; lia). cbn [shr_m].
    assert (Hk2 : 0 < 2 ^ Zpos k) by (apply Z.pow_pos_nonneg; lia).
    pose proof (Z.mul_div_le m2 (2 ^ Zpos k) Hk2) as Hdiv.
    destruct (m2 / 2 ^ Zpos k) as [|m|m] eqn:Hq; [exact I| |exact I].
    destruct (e' + Zpos k <=? _); [|exact I].
    split; [lia|].
    replace (e' + Zpos k - e') with (Zpos k) by lia. lia.
  - destruct m2 as [|m|m]; [exact I| |exact I].
    destruct (e' <=? _); [|exact I].
    split; [lia|]. rewrite Z.sub_diag. cbn. lia.
Qed.

Lemma truncate_le (m : positive) (e e' n : Z) :
  0 <= n -> e' <= e -> e' <= 0 ->
  Zpos m * 2 ^ (e - e') <= n * 2 ^ (- e') ->
  Float32.truncate m e <= n.
Proof.
  intros Hn Hee He' H. unfold Float32.truncate.
  assert (Hp : 0 < 2 ^ (e - e')) by (apply Z.pow_pos_nonneg; lia).
  destruct (Z_le_gt_dec 0 e) as [He|He].
  - rewrite Z.shiftl_mul_pow2 by exact He.
    replace (e - e') with (e + - e') in H by lia.
    rewrite Z.pow_add_r in H by lia.
    assert (0 < 2 ^ (- e')) by (apply Z.pow_pos_nonneg; lia).
    assert (0 < 2 ^ e) by (apply Z.pow_pos_nonneg; lia). nia.
  - replace e with (- - e) at 1 by lia.
    rewrite Z.shiftl_opp_r, Z.shiftr_div_pow2 by lia.
    assert (0 < 2 ^ (- e)) by (apply Z.pow_pos_nonneg; lia).
    replace (- e') with ((e - e') + - e) in H by lia.
    rewrite Z.pow_add_r in H by lia.
    apply Z.div_le_upper_bound; [lia|]. nia.
Qed.

(** With fewer than [2^24] indices and a ratio in (0, 1], the product
    converts to a value that is at most the count. *)
Lemma product_le_count (n : Z) (r : float32) :
  0 < n < 2 ^ 24 ->
  valid_binary Float32.prec Float32.emax r = true ->
  Float32.gt r Float32.zero = true ->
  Float32.gt r Float32.one = false ->
  exists t, Float32.to_size (ratio_product n r) = Some t /\ t <= n.
Proof.
  intros Hn Hv H0 H1.
  pose proof (Float32Round.product_below n r ltac:(lia) Hv H0 H1) as Hbelow.
  destruct (Float32Facts.gt_zero_inv r H0) as [->|(mr & er & ->)];
    [discriminate|].
  assert (Hcanon : fexp Float32.prec Float32.emax (Zpos (digits2_pos mr) + er)
                   = er).
  { cbn [valid_binary] in Hv. unfold bounded, canonical_mantissa in Hv.
    apply andb_true_iff in Hv. destruct Hv as [Hc _].
    apply Z.eqb_eq in Hc. exact Hc. }
  pose proof (Float32Normal.digits2_pos_bounds mr) as Hmr.
  set (dr := Zpos (digits2_pos mr)) in *.
  assert (Hdr : 1 <= dr) by (unfold dr; lia).
  destruct (Z_le_gt_dec er (-24)) as [Her|Her].
  - (* the ratio is below one half ... or any value below 1 *)
    assert (Hdr24 : dr <= 24)
      by (unfold fexp, emin, Float32.prec, Float32.emax in Hcanon; lia).
    assert (Hmr_lt : Zpos mr < 2 ^ (- er)).
    { assert (2 ^ dr <= 2 ^ (- er)) by (apply Z.pow_le_mono_r; lia). lia. }
    destruct (Float32Normal.of_size_exact n Hn) as (mf & ef & Hof & Hdf & Hef & Hmf).
    unfold ratio_product, Float32.mul in *. rewrite Hof in *.
    cbn [SFmul xorb] in *.
    pose proof (Float32Facts.binary_round_aux_sign false (Zpos (mf * mr))
                  (ef + er) loc_Exact) as Hsign.
    pose proof (Float32Round.Zdigits2_mul (Zpos mf) (Zpos mr) ltac:(lia)
                  ltac:(lia)) as Hmul.
    change (Zpos mf * Zpos mr) with (Zpos (mf * mr)) in Hmul.
    cbn [Zdigits2] in Hmul. fold dr in Hmul.
    set (M := (mf * mr)%positive) in *.
    set (E := ef + er) in *.
    set (e' := fexp Float32.prec Float32.emax (Zpos (digits2_pos M) + E)).
    assert (He' : e' <= ef)
      by (unfold e', fexp, emin, Float32.prec, Float32.emax, E; lia).
    assert (Hpe : 0 < 2 ^ (- ef)) by (apply Z.pow_pos_nonneg; lia).
    assert (Hper : 0 < 2 ^ (- er)) by (apply Z.pow_pos_nonneg; lia).
    assert (HM : Zpos M < n * 2 ^ (- E)).
    { unfold E. replace (- (ef + er)) with (- ef + - er) by lia.
      rewrite Z.pow_add_r by lia. unfold M. rewrite Pos2Z.inj_mul, Hmf. nia. }
    destruct (Z_le_gt_dec e' E) as [Hns|Hsh].
    + rewrite (round_no_shift false M E) in * by (fold e'; unfold E in *; lia).
      unfold Float32.to_size.
      assert (Ht : Float32.truncate M E <= n).
      { unfold Float32.truncate. replace E with (- - E) at 1 by lia.
        rewrite Z.shiftl_opp_r, Z.shiftr_div_pow2 by (unfold E; lia).
        apply Z.div_le_upper_bound;
          [apply Z.pow_pos_nonneg; unfold E; lia|]. lia. }
      replace (Float32.truncate M E <=? Float32.SIZE_MAX) with true;
        [eauto|].
      symmetry. apply Z.leb_le. unfold Float32.SIZE_MAX. lia.
    + pose proof (round_upper false M E (n * 2 ^ (- e')) ltac:(fold e'; lia))
        as Hup.
      fold e' in Hup.
      assert (HN : Zpos M < n * 2 ^ (- e') * 2 ^ (e' - E)).
      { rewrite <- Z.mul_assoc, <- Z.pow_add_r by lia.
        replace (- e' + (e' - E)) with (- E) by lia. exact HM. }
      specialize (Hup HN).
      destruct (binary_round_aux Float32.prec Float32.emax false (Zpos M) E
                  loc_Exact) as [s|s| |s m e];
        cbn [below_pow2] in Hbelow; try contradiction.
      * exists 0. split; [reflexivity|lia].
      * subst s. destruct Hup as [Hee Hle].
        pose proof (truncate_le m e e' n ltac:(lia) Hee ltac:(lia) Hle) as Ht.
        unfold Float32.to_size.
        replace (Float32.truncate m e <=? Float32.SIZE_MAX) with true;
          [eauto|].
        symmetry. apply Z.leb_le. unfold Float32.SIZE_MAX. lia.
  - (* the ratio is 1.0f *)
    assert (Hle : er <= -23).
    { destruct (Z_le_gt_dec er (-23)) as [Hle|Hgt]; [exact Hle|exfalso].
      unfold Float32.gt, SFltb, Float32.one, SFcompare in H1.
      replace (-23 ?= er) with Lt in H1
        by (symmetry; apply Z.compare_lt_iff; lia).
      discriminate. }
    assert (er = -23) by lia. subst er.
    assert (Hdr24 : dr = 24)
      by (unfold fexp, emin, Float32.prec, Float32.emax in Hcanon; lia).
    assert (Hmr_le : (mr <= 8388608)%positive).
    { unfold Float32.gt, SFltb, Float32.one, SFcompare in H1.
      change (Z.compare (-23) (-23)) with Eq in H1. cbv iota in H1.
      change (Pos.compare_cont Eq 8388608 mr) with (8388608 ?= mr)%positive
        in H1.
      destruct (Pos.compare_spec 8388608 mr) as [C|C|C];
        [lia|discriminate|lia]. }
    assert (mr = 8388608%positive).
    { rewrite Hdr24 in Hmr. change (2 ^ (24 - 1)) with 8388608 in Hmr. lia. }
    subst mr.
    change (S754_finite false 8388608 (-23)) with (power_of_two 0).
    rewrite ratio_product_power_of_two by lia.
    change (2 ^ (- 0)) with 1. rewrite Z.div_1_r. exists n. split; [reflexivity|lia].
Qed.

End Float32Upper.

(** X12. With fewer than [2^24] indices, [target_index_count = 0] and a
    [target_ratio] that is a float in (0, 1], the effective target never
    exceeds the count (or 3, for a count below 3): rounding the product to
    single precision cannot carry it past [index_count]. *)
Theorem X12_ratio_never_overshoots
    (index_count : Z) (options : Options.MeshoptSimplifyOptions) :
  0 < index_count < 2 ^ 24 ->
  Options.target_index_count options = 0 ->
  valid_binary Float32.prec Float32.emax (Options.target_ratio options) = true ->
  Float32.gt (Options.target_ratio options) Float32.zero = true ->
  Float32.gt (Options.target_ratio options) Float32.one = false ->
  exists t,
    effective_target_index_count index_count options = Some t
    /\ t <= Z.max 3 index_count
    /\ (3 <= index_count -> t <= index_count).
Proof.
  intros Hn H0 Hv Hr0 Hr1.
  destruct (Float32Upper.product_le_count index_count _ Hn Hv Hr0 Hr1)
    as (u & Hu & Hle).
  pose proof (to_size_range _ u Hu) as [Hu0 _].
  unfold effective_target_index_count. rewrite H0, Hr0, Hu. cbn [andb Z.eqb].
  eexists. split; [reflexivity|].
  pose proof (Z.mul_div_le u 3 ltac:(lia)) as Hdiv.
  destruct (u / 3 * 3 =? 0); lia.
Qed.

(** The cube at [0.5f]: 18 of 36. *)
Lemma X12_ratio_never_overshoots_witness :
  exists t,
    effective_target_index_count 36 (ratio_only Float32.half) = Some t
    /\ t <= 36.
Proof.
  destruct (X12_ratio_never_overshoots 36 (ratio_only Float32.half))
    as (t & E & _ & Hle);
    [lia | reflexivity | reflexivity | reflexivity | reflexivity |].
  exists t. split; [exact E | apply Hle; lia].
Defined.

(** The bound on the count matters: 67108893 indices (a multiple of 3)
    convert to 67108896.0f, and at [1.0f] the target is 67108896, three
    more than there are. *)
Example large_count_overshoots :
  effective_target_index_count 67108893 (ratio_only Float32.one)
  = Some 67108896.
Proof. vm_compute. reflexivity. Qed.
